(** * ilostat.py: a shallow embedding of the ILOSTAT bulk-download client

    The Python module [ilostat/ilostat.py] fetches a table of contents,
    datasets and dictionaries from the ILOSTAT bulk download facility,
    keeps datasets in a file cache, filters tables column by column and
    labels codes.  This development embeds its functions as Rocq
    definitions and states the properties of the specification about them.

    Conventions
    - Python exceptions are values of [exn]; a computation that may raise
      returns [exn + A] ([inl e] = "raise e").
    - Code that touches the file system, the network or the console runs
      in the monad [io A = world -> world * (exn + A)].
    - pandas, re, requests and the remote server are the environment of
      the program: their behaviour is a parameter ([Section] variables),
      the parts the package relies on are written out as definitions. *)

From Stdlib Require Import ZArith Ascii String List Bool Lia DecimalString.
From stdpp Require Import base option list strings gmap.

Local Open Scope string_scope.
Local Open Scope nat_scope.
Local Open Scope list_scope.

(** ** Python strings *)

Module Py.

(** [str.lower] on the ASCII range. *)
Definition lower_ascii (c : ascii) : ascii :=
  let n := nat_of_ascii c in
  if (65 <=? n) && (n <=? 90) then ascii_of_nat (n + 32) else c.

Fixpoint lower (s : string) : string :=
  match s with
  | EmptyString => EmptyString
  | String c s' => String (lower_ascii c) (lower s')
  end.

(** [s.find(sub)]: index of the first occurrence, [-1] when absent. *)
Definition find (s sub : string) : Z :=
  match String.index 0 sub s with
  | Some i => Z.of_nat i
  | None => (-1)%Z
  end.

(** [sub in s]. *)
Definition contains (sub s : string) : bool :=
  match String.index 0 sub s with
  | Some _ => true
  | None => false
  end.

(** [s[i:j]] for [0 <= i <= j]; out-of-range bounds are clamped. *)
Definition slice (s : string) (i j : nat) : string :=
  String.substring i (j - i) s.

(** [sep.join(l)] for a list of strings. *)
Definition join (sep : string) (l : list string) : string :=
  String.concat sep l.

(** Iterating a string yields its characters as one-character strings:
    [list(s)]. *)
Fixpoint chars (s : string) : list string :=
  match s with
  | EmptyString => []
  | String c s' => String c EmptyString :: chars s'
  end.

(** [s.split(c)] for a one-character separator. *)
Fixpoint split (c : ascii) (s : string) : list string :=
  match s with
  | EmptyString => [EmptyString]
  | String a s' =>
      if Ascii.eqb a c then EmptyString :: split c s'
      else match split c s' with
           | h :: t => String a h :: t
           | [] => [String a EmptyString]
           end
  end.

(** [s.replace(old, new)]: every non-overlapping occurrence of [old],
    scanning from the left.  [skip] counts the characters of the
    occurrence just replaced that are still to be passed over. *)
Fixpoint replace_from (old new : string) (skip : nat) (s : string) : string :=
  match s with
  | EmptyString => EmptyString
  | String a s' =>
      match skip with
      | S k => replace_from old new k s'
      | O =>
          if String.prefix old s
          then new +:+ replace_from old new (String.length old - 1) s'
          else String a (replace_from old new 0 s')
      end
  end.

Fixpoint intersperse (new : string) (s : string) : string :=
  match s with
  | EmptyString => new
  | String a s' => new +:+ String a (intersperse new s')
  end.

Definition replace (s old new : string) : string :=
  match old with
  | EmptyString => intersperse new s
  | String _ _ => replace_from old new 0 s
  end.

(** Truth value of a string / of a list. *)
Definition truthy_str (s : string) : bool :=
  match s with EmptyString => false | String _ _ => true end.

Definition truthy_list {A} (l : list A) : bool :=
  match l with [] => false | _ :: _ => true end.

End Py.

(** ** Exceptions and results *)

(** The exception classes the program can meet.  [OSError] stands for the
    whole family ([IOError] is its alias in Python 3; [FileNotFoundError],
    urllib's [HTTPError]/[URLError], [requests.RequestException] and gzip's
    [BadGzipFile] derive from it); [ValueError] includes pandas'
    [ParserError] and [EmptyDataError]; [ReError] is [re.error]. *)
Inductive exn : Type :=
| OSError
| ValueError
| TypeError
| AttributeError
| KeyError
| IndexError
| UnboundLocalError
| ReError.

#[global] Instance exn_eq_dec : EqDecision exn.
Proof. solve_decision. Defined.

(** What [except OSError:] / [except IOError:] catches. *)
Definition is_OSError (e : exn) : bool :=
  match e with OSError => true | _ => false end.

(** ** Tables *)

(** A value stored in a frame: a text code, a missing value (NaN) or a
    number.  The payload of a number is never inspected by the program. *)
Inductive cell : Type :=
| CStr (s : string)
| CNaN
| CNum (v : Z).

#[global] Instance cell_eq_dec : EqDecision cell.
Proof. solve_decision. Defined.

(** Column types: [object] columns (read with [dtype = str]) hold text and
    NaN; numeric columns ([float32], [int64]) hold numbers. *)
Inductive dtype : Type := DObject | DNumeric.

#[global] Instance dtype_eq_dec : EqDecision dtype.
Proof. solve_decision. Defined.

(** [pandas.DataFrame]: the header, in column order, and the rows.  Every
    row of a frame built by pandas has one cell per column; a missing cell
    reads as NaN. *)
Record DataFrame : Type := mkDataFrame {
  columns : list (string * dtype);
  rows : list (list cell)
}.

(** [pandas.Series]: one column taken out of a frame, or built by hand. *)
Record Series : Type := mkSeries {
  sname : option string;
  sdtype : dtype;
  svalues : list cell
}.

(** [type(df) == pandas.core.frame.DataFrame], for what [read_csv] has
    returned: it returns a frame or raises. *)
Definition is_DataFrame (df : DataFrame) : bool := true.

(** [pandas.DataFrame()] *)
Definition empty_frame : DataFrame := mkDataFrame [] [].

Definition cell_at (row : list cell) (index : nat) : cell :=
  default CNaN (row !! index).

Definition column_names (df : DataFrame) : list string := (columns df).*1.

(** Position of the first column called [name]. *)
Fixpoint column_index (name : string) (cols : list (string * dtype)) : option nat :=
  match cols with
  | [] => None
  | (n, _) :: cols' =>
      if String.eqb n name then Some 0
      else S <$> column_index name cols'
  end.

(** [df.iloc[:, index]] *)
Definition iloc_col (df : DataFrame) (index : nat) : exn + Series :=
  match columns df !! index with
  | None => inl IndexError
  | Some (n, ty) => inr (mkSeries (Some n) ty (map (fun row => cell_at row index) (rows df)))
  end.

(** [df[name]] *)
Definition getitem_col (df : DataFrame) (name : string) : exn + Series :=
  match column_index name (columns df) with
  | None => inl KeyError
  | Some index => iloc_col df index
  end.

(** [df[mask]] for a mask computed from a column of [df]: a mask holding
    NaN is refused ("Cannot mask with non-boolean array containing NA /
    NaN values"), otherwise the rows whose entry is [True] are kept. *)
Definition mask_has_na (mask : list (option bool)) : bool :=
  existsb (fun b => match b with None => true | Some _ => false end) mask.

Definition select_rows (rs : list (list cell)) (mask : list (option bool)) : list (list cell) :=
  map fst (List.filter (fun rb => match snd rb with Some true => true | _ => false end)
                       (combine rs mask)).

Definition getitem_mask (df : DataFrame) (mask : list (option bool)) : exn + DataFrame :=
  if mask_has_na mask then inl ValueError
  else inr (mkDataFrame (columns df) (select_rows (rows df) mask)).

(** A filter slot as Python receives it: a string or a list of strings. *)
Inductive filter_entry : Type :=
| FStr (s : string)
| FList (l : list string).

Definition truthy_entry (f : filter_entry) : bool :=
  match f with
  | FStr s => Py.truthy_str s
  | FList l => Py.truthy_list l
  end.

(** [sep.join(f)]: a list is joined item by item, a string character by
    character. *)
Definition join_entry (sep : string) (f : filter_entry) : string :=
  match f with
  | FStr s => Py.join sep (Py.chars s)
  | FList l => Py.join sep l
  end.

(** [l[index]] *)
Definition getitem {A} (l : list A) (index : nat) : exn + A :=
  match l !! index with
  | Some a => inr a
  | None => inl IndexError
  end.

(** [range(a, b)] *)
Definition range (a b : nat) : list nat := seq a (b - a).

(** ** Programs with state and exceptions *)

Definition prog (S A : Type) : Type := S -> S * (exn + A).

Definition ret {S A} (a : A) : prog S A := fun s => (s, inr a).

Definition raise {S A} (e : exn) : prog S A := fun s => (s, inl e).

Definition bind {S A B} (m : prog S A) (k : A -> prog S B) : prog S B :=
  fun s =>
    match m s with
    | (s', inl e) => (s', inl e)
    | (s', inr a) => k a s'
    end.

Definition lift {S A} (r : exn + A) : prog S A := fun s => (s, r).

Definition get {S} : prog S S := fun s => (s, inr s).

Definition put {S} (s : S) : prog S unit := fun _ => (s, inr tt).

Declare Scope prog_scope.
Delimit Scope prog_scope with prog.
Notation "x <- m ;; k" := (bind m (fun x => k))
  (at level 100, m at next level, right associativity) : prog_scope.
Notation "m ;; k" := (bind m (fun _ => k))
  (at level 100, right associativity) : prog_scope.
Local Open Scope prog_scope.

(** [try: body  except OSError: handler]: the handler runs in the state the
    body had reached when it raised; any other exception goes on. *)
Definition try_except_OSError {S A} (body handler : prog S A) : prog S A :=
  fun s =>
    match body s with
    | (s', inl e) => if is_OSError e then handler s' else (s', inl e)
    | (s', inr a) => (s', inr a)
    end.

(** [for i in l: body(i)] *)
Fixpoint for_each {S I} (l : list I) (body : I -> prog S unit) : prog S unit :=
  match l with
  | [] => ret tt
  | i :: l' => body i ;; for_each l' body
  end.

(** A local variable that may not have been assigned yet. *)
Definition read_local {S A} (v : option A) : prog S A :=
  match v with
  | Some a => ret a
  | None => raise UnboundLocalError
  end.

(** Result of running a program on a state, as the caller sees it. *)
Definition eval {S A} (m : prog S A) (s : S) : exn + A := snd (m s).

(** ** The world: files, console, network *)

(** What the server answers to a GET. *)
Inductive response : Type :=
| Unreachable
| Response (status : nat) (body : string).

(** The state the program acts on: the files (path to content) and
    directories of the local disk, the lines printed so far, and the URLs
    requested so far. *)
Record world : Type := mkWorld {
  files : gmap string string;
  dirs : gset string;
  stdout : list string;
  requested : list string
}.

Definition io (A : Type) : Type := prog world A.

(** The libraries and the remote side.
    - [re_compile pat]: [re.compile(pat)], a matcher for [re.search], or
      [None] when the pattern is malformed ([re.error] is raised);
    - [server url]: the answer of the bulk download facility;
    - [parse_toc], [parse_dic]: [pandas.read_csv] with the column types of
      the table of contents / of a dictionary, on a downloaded body;
    - [parse_dataset path body]: [pandas.read_csv(path, compression =
      'infer', dtype = ...)] on a local file with that content (the
      decompression is chosen from the extension of [path]);
    - [parse_stata]: [pandas.read_stata] on a downloaded body;
    - [tempdir]: [tempfile.gettempdir()]. *)
Record environment : Type := mkEnvironment {
  re_compile : string -> option (string -> bool);
  server : string -> response;
  parse_toc : string -> exn + DataFrame;
  parse_dic : string -> exn + DataFrame;
  parse_dataset : string -> string -> exn + DataFrame;
  parse_stata : string -> exn + DataFrame;
  tempdir : string
}.

Definition print (msg : string) : io unit :=
  fun w => (mkWorld (files w) (dirs w) (stdout w ++ [msg]) (requested w), inr tt).

Definition log_request (url : string) (w : world) : world :=
  mkWorld (files w) (dirs w) (stdout w) (requested w ++ [url]).

Definition http_ok (status : nat) : bool := (200 <=? status) && (status <? 300).

(** Reading a URL the way pandas does (urllib): an unreachable host or a
    status outside 2xx raises [URLError] / [HTTPError]. *)
Definition urlopen (srv : string -> response) (url : string) : io string :=
  fun w =>
    match srv url with
    | Unreachable => (log_request url w, inl OSError)
    | Response status body =>
        (log_request url w, if http_ok status then inr body else inl OSError)
    end.

(** [requests.get(url, stream = True)]: any answer is returned, whatever
    its status; an unreachable host raises [ConnectionError]. *)
Definition requests_get (srv : string -> response) (url : string) : io string :=
  fun w =>
    match srv url with
    | Unreachable => (log_request url w, inl OSError)
    | Response _ body => (log_request url w, inr body)
    end.

Definition os_path_isfile (path : string) : io bool :=
  fun w => (w, inr (bool_decide (is_Some (files w !! path)))).

Definition os_path_isdir (path : string) : io bool :=
  fun w => (w, inr (bool_decide (path ∈ dirs w))).

(** [os.remove(path)]: [FileNotFoundError] when there is no such file. *)
Definition os_remove (path : string) : io unit :=
  fun w =>
    match files w !! path with
    | Some _ => (mkWorld (delete path (files w)) (dirs w) (stdout w) (requested w), inr tt)
    | None => (w, inl OSError)
    end.

(** Opening a local file for reading: [FileNotFoundError] when absent. *)
Definition read_file (path : string) : io string :=
  fun w =>
    match files w !! path with
    | Some body => (w, inr body)
    | None => (w, inl OSError)
    end.

(** [os.path.dirname] *)
Fixpoint head_to_last_slash (p : string) : string :=
  match p with
  | EmptyString => EmptyString
  | String a p' =>
      match head_to_last_slash p' with
      | EmptyString => if Ascii.eqb a "/" then String a EmptyString else EmptyString
      | h => String a h
      end
  end.

Fixpoint rstrip_slash (p : string) : string :=
  match p with
  | EmptyString => EmptyString
  | String a p' =>
      match rstrip_slash p' with
      | EmptyString => if Ascii.eqb a "/" then EmptyString else String a EmptyString
      | r => String a r
      end
  end.

Definition os_path_dirname (p : string) : string :=
  let head := head_to_last_slash p in
  match rstrip_slash head with
  | EmptyString => head
  | r => r
  end.

(** [os.path.basename]: what follows the last slash. *)
Fixpoint os_path_basename (p : string) : string :=
  match p with
  | EmptyString => EmptyString
  | String a p' =>
      match head_to_last_slash p' with
      | EmptyString => if Ascii.eqb a "/" then p' else String a p'
      | _ => os_path_basename p'
      end
  end.

(** [os.path.split] *)
Definition os_path_split (p : string) : string * string :=
  (os_path_dirname p, os_path_basename p).

(** *** Directories

    The disk lists its directories but the root and the current directory,
    which always exist; a path is compared as it is spelled. *)

Fixpoint only_slashes (p : string) : bool :=
  match p with
  | EmptyString => true
  | String a p' => Ascii.eqb a "/" && only_slashes p'
  end.

Definition is_root (p : string) : bool := Py.truthy_str p && only_slashes p.

(** [path] is a directory. *)
Definition is_dir (w : world) (path : string) : bool :=
  bool_decide (path ∈ dirs w) || is_root path.

(** [os.path.exists(path)] *)
Definition path_exists (w : world) (path : string) : bool :=
  bool_decide (is_Some (files w !! path)) || is_dir w path.

(** The directory in which an entry called [path] is made exists: the
    path has no directory part (the entry goes to the current directory),
    or that part is a directory. *)
Definition parent_exists (w : world) (path : string) : bool :=
  let head := os_path_dirname path in
  negb (Py.truthy_str head) || is_dir w head.

(** [path] can be opened for writing: it names an entry of a directory
    that exists, and is not itself a directory. *)
Definition writable (w : world) (path : string) : bool :=
  Py.truthy_str (os_path_basename path)
  && parent_exists w path
  && negb (is_dir w path).

(** [with open(path, 'wb') as f: f.write(...)]: [FileNotFoundError] when
    the directory of the path does not exist, [NotADirectoryError] when
    it is a file, [IsADirectoryError] when the path is a directory;
    otherwise the file holds exactly what was written. *)
Definition write_file (path body : string) : io unit :=
  fun w =>
    if writable w path
    then (mkWorld (<[path := body]> (files w)) (dirs w) (stdout w) (requested w), inr tt)
    else (w, inl OSError).

(** The first lines of [os.makedirs]:
<<
    head, tail = path.split(name)
    if not tail:
        head, tail = path.split(head)
>> *)
Definition makedirs_split (name : string) : string * string :=
  let (head, tail) := os_path_split name in
  if Py.truthy_str tail then (head, tail) else os_path_split head.

(** The directories [os.makedirs(name)] makes before [name], the nearest
    first: it calls itself on [head] while [head] does not exist
<<
    if head and tail and not path.exists(head):
        makedirs(head, exist_ok=exist_ok)
    mkdir(name, mode)
>>
    and the [mkdir] of the outermost missing directory raises
    [NotADirectoryError] when what it should lie in is a file.  [fuel]
    bounds the number of calls; [head] is shorter than [name] at each call,
    so the length of [name] is enough (lemma [missing_ancestors_fuel]). *)
Fixpoint missing_ancestors (fuel : nat) (w : world) (name : string) : exn + list string :=
  let (head, tail) := makedirs_split name in
  if Py.truthy_str head && Py.truthy_str tail then
    if path_exists w head then
      if is_dir w head then inr [] else inl OSError
    else
      match fuel with
      | 0 => inr []
      | S fuel' =>
          match missing_ancestors fuel' w head with
          | inl e => inl e
          | inr l => inr (head :: l)
          end
      end
  else inr [].

(** [os.makedirs(path)]: [FileNotFoundError] for the empty path,
    [FileExistsError] when the path exists (as a file or as a directory),
    [NotADirectoryError] when the nearest existing directory on the way
    to it is in fact a file; otherwise the missing directories on the way
    and the path itself are made.  On a disk where every entry lies in a
    directory that exists, the first [mkdir] is the only one that can
    fail, so nothing is made when an exception is raised. *)
Definition os_makedirs (path : string) : io unit :=
  fun w =>
    if negb (Py.truthy_str path) || path_exists w path then (w, inl OSError)
    else
      match missing_ancestors (String.length path) w path with
      | inl e => (w, inl e)
      | inr l =>
          (mkWorld (files w) ({[path]} ∪ list_to_set l ∪ dirs w) (stdout w) (requested w),
           inr tt)
      end.

(** The [search] argument of [get_ilostat_toc]: a string or a list. *)
Inductive search_arg : Type :=
| SearchStr (s : string)
| SearchList (l : list string).

Definition truthy_search (s : search_arg) : bool :=
  match s with
  | SearchStr s => Py.truthy_str s
  | SearchList l => Py.truthy_list l
  end.

(** [''.join(x)] over the cells of a row: only strings can be joined. *)
Fixpoint join_cells (l : list cell) : exn + string :=
  match l with
  | [] => inr EmptyString
  | CStr s :: l' =>
      match join_cells l' with
      | inr r => inr (s +:+ r)
      | inl e => inl e
      end
  | _ :: _ => inl TypeError
  end.

(** Mapping a computation that may raise over a list, left to right. *)
Fixpoint traverse {A B} (f : A -> exn + B) (l : list A) : exn + list B :=
  match l with
  | [] => inr []
  | a :: l' =>
      match f a with
      | inl e => inl e
      | inr b =>
          match traverse f l' with
          | inl e => inl e
          | inr bs => inr (b :: bs)
          end
      end
  end.

Definition base_url : string := "http://www.ilo.org/ilostat-files/WEB_bulk_download/".

(** [series.unique()]: the distinct values in order of first appearance
    (NaN counts as one value). *)
Fixpoint unique_from (seen : list cell) (l : list cell) : list cell :=
  match l with
  | [] => []
  | x :: l' =>
      if bool_decide (x ∈ seen) then unique_from seen l'
      else x :: unique_from (x :: seen) l'
  end.

Definition unique (l : list cell) : list cell := unique_from [] l.

(** [dat.append(other, ignore_index = True)]: the rows of both frames under
    the union of their columns, cells of absent columns being NaN. *)
Definition align_row (from to : list (string * dtype)) (row : list cell) : list cell :=
  map (fun c => match column_index c.1 from with
                | Some i => cell_at row i
                | None => CNaN
                end) to.

Definition df_append (a b : DataFrame) : DataFrame :=
  let merged :=
    map (fun c => match column_index c.1 (columns b) with
                  | Some i => match columns b !! i with
                              | Some (_, ty) => if bool_decide (ty = c.2) then c else (c.1, DObject)
                              | None => c
                              end
                  | None => c
                  end) (columns a) in
  let extra :=
    List.filter (fun c => negb (bool_decide (c.1 ∈ column_names a))) (columns b) in
  let cols := merged ++ extra in
  mkDataFrame cols (map (align_row (columns a) cols) (rows a)
                    ++ map (align_row (columns b) cols) (rows b)).

(** The [id] argument of [get_ilostat]: a string, a list of strings or a
    data frame. *)
Inductive id_arg : Type :=
| IdStr (s : string)
| IdList (l : list string)
| IdFrame (df : DataFrame).

(** [last_toc_update[6:10] + last_toc_update[3:5] + last_toc_update[0:2]];
    a value that is not a string cannot be sliced. *)
Definition reformat_date (c : cell) : exn + string :=
  match c with
  | CStr s => inr (Py.slice s 6 10 +:+ Py.slice s 3 5 +:+ Py.slice s 0 2)
  | _ => inl TypeError
  end.

Definition cache_file_name (cache_dir segment id last_toc_update cache_format : string) : string :=
  cache_dir +:+ "/" +:+ segment +:+ "-" +:+ id +:+ "-" +:+ last_toc_update +:+ "." +:+ cache_format.

Definition normalize_segment (segment lang : string) : string * string :=
  if negb (Py.find (Py.lower segment) "model" =? -1)%Z
  then ("modelled_estimates", "en")
  else (segment, lang).

Definition toc_url (segment lang : string) : string :=
  base_url +:+ segment +:+ "/" +:+ "table_of_contents_" +:+ lang +:+ ".csv".

Definition missing_msg (id : string) : string :=
  "Dataset with id = " +:+ id +:+ " does not exist or is not readable".

(** The columns [toc.iloc[:, [1,2,3,4,10,11,12,13]]] of the search. *)
Definition title_columns : list nat := [1; 2; 3; 4; 10; 11; 12; 13].

(** *** Frames built and joined by the labeler *)

(** [df.iloc[:, idxs]] *)
Definition iloc_cols (df : DataFrame) (idxs : list nat) : exn + DataFrame :=
  match traverse (fun i => getitem (columns df) i) idxs with
  | inl e => inl e
  | inr cols => inr (mkDataFrame cols (map (fun row => map (cell_at row) idxs) (rows df)))
  end.

(** Column type pandas gives to a column built from a list of values: a
    text column when the list is empty or holds a string, a numeric one
    when it holds only numbers and NaN. *)
Definition infer_dtype (l : list cell) : dtype :=
  match l with
  | [] => DObject
  | _ :: _ => if existsb (fun c => match c with CStr _ => true | _ => false end) l
              then DObject else DNumeric
  end.

(** [pandas.merge(left, right, how = 'left', on = [name])] for a [left]
    frame made of the single column [name]: the key column, then the other
    columns of [right]; every left value, in order, once per right row
    with that key (NaN keys match each other), or once with NaN when no
    right row has it.  A text key is not merged with a numeric one
    (the test is skipped when exactly one side has no row). *)
Definition merge_left (name : string) (lty : dtype) (left : list cell) (right : DataFrame)
  : exn + DataFrame :=
  match column_index name (columns right) with
  | None => inl KeyError
  | Some k =>
      let rty := default DObject (snd <$> columns right !! k) in
      if negb (xorb (Py.truthy_list left) (Py.truthy_list (rows right)))
         && negb (bool_decide (lty = rty))
      then inl ValueError
      else
        let others := delete k (columns right) in
        inr (mkDataFrame
               ((name, lty) :: others)
               (flat_map
                  (fun v =>
                     match List.filter (fun r => bool_decide (cell_at r k = v)) (rows right) with
                     | [] => [v :: map (fun _ => CNaN) others]
                     | matches => map (fun r => v :: delete k r) matches
                     end) left))
  end.

(** [sep.join(l)] for a list of cells: every item must be a string. *)
Definition join_labels (sep : string) (l : list cell) : exn + string :=
  match traverse (fun c => match c with CStr s => inr s | _ => inl TypeError end) l with
  | inl e => inl e
  | inr ss => inr (Py.join sep ss)
  end.

(** The first argument of [label_ilostat]: a list of codes, a series, or
    a data frame; and its result: a frame or a list. *)
Inductive label_input : Type :=
| XList (l : list cell)
| XSeries (s : Series)
| XFrame (df : DataFrame).

Inductive label_output : Type :=
| YFrame (df : DataFrame)
| YList (l : list cell).

(** What is not a data frame, for the labeler: a list or a series. *)
Definition vector : Type := (list cell + Series)%type.

(** [pandas.DataFrame(x, columns = [dic])], as the type and the values of
    its only column: a list or an unnamed series gives its values, a series
    called [dic] too, a series with another name gives no row. *)
Definition frame_of (x : vector) (dic : string) : dtype * list cell :=
  match x with
  | inl l => (infer_dtype l, l)
  | inr s =>
      match sname s with
      | None => (sdtype s, svalues s)
      | Some n => if String.eqb n dic then (sdtype s, svalues s) else (DObject, [])
      end
  end.

Definition ilostat_cols_ref : list string :=
  ["collection"; "collection.label"; "ref_area"; "ref_area.label"; "source"; "source.label";
   "indicator"; "indicator.label"; "sex"; "sex.label"; "classif1"; "classif1.label";
   "classif2"; "classif2.label"; "time"; "obs_value"; "obs_status"; "obs_status.label";
   "note_classif"; "note_classif.label"; "note_indicator"; "note_indicator.label";
   "note_source"; "note_source.label"].

(** [str(l)] for a list of strings *)
Definition repr_list (l : list string) : string :=
  "[" +:+ Py.join ", " (map (fun s => "'" +:+ s +:+ "'") l) +:+ "]".

(** [str(n)] *)
Definition str_of_nat (n : nat) : string := NilZero.string_of_uint (Nat.to_uint n).

Definition dic_url (dic lang : string) : string :=
  base_url +:+ "dic/" +:+ (Py.lower dic +:+ "_" +:+ Py.lower lang) +:+ ".csv".

Section Program.

Context (E : environment).

(** *** Filter step *)

(** [series.str.contains(pat)]: the [.str] accessor refuses a numeric
    column, the pattern is compiled, and each value is searched; a value
    that is not a string gives NaN. *)
Definition str_contains (s : Series) (pat : string) : exn + list (option bool) :=
  match sdtype s with
  | DNumeric => inl AttributeError
  | DObject =>
      match re_compile E pat with
      | None => inl ReError
      | Some matcher =>
          inr (map (fun c => match c with
                             | CStr x => Some (matcher x)
                             | _ => None
                             end) (svalues s))
      end
  end.

(** Body of the loop, the table being the state:
<<
      test_filter = filters[index]
      if test_filter:
        test_item = '|'.join(test_filter)
        dat = dat[dat.iloc[:, index].str.contains(test_item)]
>> *)
Definition filter_body (filters : list filter_entry) (index : nat) : prog DataFrame unit :=
  test_filter <- lift (getitem filters index) ;;
  if truthy_entry test_filter then
    let test_item := join_entry "|" test_filter in
    dat <- get ;;
    col <- lift (iloc_col dat index) ;;
    mask <- lift (str_contains col test_item) ;;
    dat' <- lift (getitem_mask dat mask) ;;
    put dat'
  else ret tt.

(** The block at the end of [get_ilostat_dat] and of [get_ilostat_toc]:
<<
    if filters:
      test_cols = min(len(dat.columns), len(filters))
      try:
        for index in range(test_cols): ...
      except OSError:
        pass
>> *)
Definition filter_step (filters : list filter_entry) : prog DataFrame unit :=
  if Py.truthy_list filters then
    dat <- get ;;
    let test_cols := min (length (columns dat)) (length filters) in
    try_except_OSError
      (for_each (range 0 test_cols) (filter_body filters))
      (ret tt)
  else ret tt.

(** The filter step as a function of the table: the new table, or the
    exception that leaves the function. *)
Definition apply_filters (filters : list filter_entry) (dat : DataFrame) : exn + DataFrame :=
  match filter_step filters dat with
  | (dat', inr _) => inr dat'
  | (_, inl e) => inl e
  end.

(** *** get_ilostat_toc *)

(** The [search] block.  The column [titles] is added, searched and
    dropped again, so only the rows change. *)
Definition search_step (search : search_arg) (toc : DataFrame) : io DataFrame :=
  if truthy_search search then
    let newsearch := match search with
                     | SearchList l => Py.join " and " l
                     | SearchStr s => s
                     end in
    print newsearch ;;
    (if forallb (fun i => i <? length (columns toc)) title_columns
     then ret tt else raise IndexError) ;;
    (* on a table without rows, [apply] gives back a frame, which cannot
       be assigned to the column [titles] *)
    (if Py.truthy_list (rows toc) then ret tt else raise ValueError) ;;
    titles <- lift (traverse (fun row => join_cells (map (cell_at row) title_columns))
                             (rows toc)) ;;
    mask <- lift (str_contains (mkSeries (Some "titles") DObject (map CStr titles)) newsearch) ;;
    lift (getitem_mask toc mask)
  else ret toc.

Definition get_ilostat_toc (segment lang : string) (search : search_arg)
           (filters : list filter_entry) : io DataFrame :=
  let '(segment, lang) := normalize_segment segment lang in
  body <- urlopen (server E) (toc_url segment lang) ;;
  toc <- lift (parse_toc E body) ;;
  (if negb (is_DataFrame toc)
   then print ("the toc file : " +:+ toc_url segment lang +:+ " does not exist")
   else ret tt) ;;
  toc <- search_step search toc ;;
  lift (apply_filters filters toc).

(** *** get_ilostat_raw *)

Definition get_ilostat_raw (id segment cache_file cache_dir cache_format : string)
           (quiet : bool) : io DataFrame :=
  let dat := empty_frame in
  if String.eqb segment "modelled_estimates" then
    let base := base_url +:+ segment +:+ "/" +:+ id +:+ ".dta" in
    (* [tfile] is only assigned in the other branch *)
    let tfile : option string := None in
    dat <- try_except_OSError
             (body <- urlopen (server E) base ;;
              lift (parse_stata E body))
             ((if negb quiet then print (missing_msg id) else ret tt) ;;
              tfile <- read_local tfile ;;
              os_remove tfile ;;
              ret dat) ;;
    (if negb quiet
     then print (base_url +:+ segment +:+ "/" +:+ id +:+ "." +:+ cache_format)
     else ret tt) ;;
    ret dat
  else
    let base := base_url +:+ segment +:+ "/" +:+ id +:+ ".csv.gz" in
    let tfile := Py.replace cache_file ("." +:+ cache_format) ".csv.gz" in
    body <- requests_get (server E) base ;;
    write_file tfile body ;;
    (* [inl]: the handler's [return pandas.DataFrame()]; [inr]: go on *)
    r <- try_except_OSError
           (content <- read_file tfile ;;
            dat <- lift (parse_dataset E tfile content) ;;
            (if negb (String.eqb cache_format "csv.gz") then os_remove tfile else ret tt) ;;
            ret (inr dat))
           ((if negb quiet then print (missing_msg id) else ret tt) ;;
            os_remove tfile ;;
            ret (inl empty_frame)) ;;
    match r with
    | inl returned => ret returned
    | inr dat =>
        (if negb quiet
         then print (base_url +:+ segment +:+ "/" +:+ id +:+ "." +:+ cache_format)
         else ret tt) ;;
        ret dat
    end.

(** *** get_ilostat_dat *)

Definition get_ilostat_dat (id segment : string) (filters : list filter_entry)
           (cache cache_update : bool) (cache_dir cache_format : string)
           (quiet : bool) : io DataFrame :=
  let dat := empty_frame in
  toc <- get_ilostat_toc segment "en" (SearchList []) [FStr id] ;;
  last_toc_update <- lift (getitem_col toc "last.update") ;;
  if Py.truthy_list (svalues last_toc_update) then
    first <- lift (getitem (unique (svalues last_toc_update)) 0) ;;
    last_toc_update <- lift (reformat_date first) ;;
    let cache_dir := if Py.truthy_str cache_dir then cache_dir
                     else tempdir E +:+ "/ilostat" in
    isdir <- os_path_isdir cache_dir ;;
    (if negb isdir then os_makedirs cache_dir else ret tt) ;;
    let cache_file := cache_file_name cache_dir segment id last_toc_update cache_format in
    isfile <- os_path_isfile cache_file ;;
    cache_update <-
      (if cache && (cache_update && isfile)
       then (if negb quiet then print ("Table " +:+ id +:+ " is up to date") else ret tt) ;;
            ret false
       else ret cache_update) ;;
    dat <-
      (if negb cache || cache_update || negb isfile
       then get_ilostat_raw id segment cache_file cache_dir cache_format quiet
       else
         content <- read_file cache_file ;;
         dat <- lift (parse_dataset E cache_file content) ;;
         (if negb quiet
          then print ("Table " +:+ id +:+ " read from cache file: "
                      +:+ os_path_dirname cache_file)
          else ret tt) ;;
         ret dat) ;;
    lift (apply_filters filters dat)
  else
    (if negb quiet
     then print ("Dataset with id = " +:+ id +:+ "does not exist or is not readable")
     else ret tt) ;;
    ret dat.

(** *** get_ilostat *)

(** [for i in range(1, len(id)): dat = dat.append(get_ilostat_dat(id[i], ...))] *)
Fixpoint append_datasets (id : list string) (indices : list nat) (dat : DataFrame)
         (segment : string) (filters : list filter_entry) (cache cache_update : bool)
         (cache_dir cache_format : string) (quiet : bool) : io DataFrame :=
  match indices with
  | [] => ret dat
  | i :: rest =>
      id_i <- lift (getitem id i) ;;
      other <- get_ilostat_dat id_i segment filters cache cache_update
                               cache_dir cache_format quiet ;;
      append_datasets id rest (df_append dat other) segment filters cache cache_update
                      cache_dir cache_format quiet
  end.

(** [id.id]: attribute access to the column called [id]. *)
Definition getattr_col (df : DataFrame) (name : string) : exn + Series :=
  match getitem_col df name with
  | inl _ => inl AttributeError
  | inr s => inr s
  end.

Definition get_ilostat (id : id_arg) (segment : string) (filters : list filter_entry)
           (cache cache_update : bool) (cache_dir cache_format : string)
           (quiet : bool) : io DataFrame :=
  (* the result variable, not assigned yet *)
  let dat : option DataFrame := None in
  (match id with
   | IdFrame df =>
       col <- lift (getattr_col df "id") ;;
       let ref_id := unique (svalues col) in
       if negb (1 <? length ref_id)
       then (ref_id <- lift (getitem ref_id 0) ;; ret tt)
       else ret tt
   | _ => ret tt
   end) ;;
  let segment := fst (normalize_segment segment "") in
  dat <- (match id with
          | IdStr id =>
              d <- get_ilostat_dat id segment filters cache cache_update
                                   cache_dir cache_format quiet ;;
              ret (Some d)
          | _ => ret dat
          end) ;;
  dat <- (match id with
          | IdList id =>
              id_0 <- lift (getitem id 0) ;;
              d <- get_ilostat_dat id_0 segment filters cache cache_update
                                   cache_dir cache_format quiet ;;
              d <- (if 1 <? length id
                    then append_datasets id (range 1 (length id)) d segment filters
                                         cache cache_update cache_dir cache_format quiet
                    else ret d) ;;
              ret (Some d)
          | _ => ret dat
          end) ;;
  read_local dat.

(** *** get_ilostat_dic *)

Definition get_ilostat_dic (dic lang : string) : io DataFrame :=
  body <- urlopen (server E) (dic_url dic lang) ;;
  dic_df <- lift (parse_dic E body) ;;
  (if negb (is_DataFrame dic_df)
   then print ("the dic file : " +:+ dic_url dic lang +:+ " does not exist")
   else ret tt) ;;
  ret dic_df.

(** *** label_ilostat *)

(** One turn of the loop over the distinct composite values: split the
    value, join its parts against the dictionary, glue the labels. *)
Definition composite_label (dic : string) (dic_df : DataFrame) (value : cell) : io string :=
  match value with
  | CStr v =>
      let test := Py.split "_" v in
      print (str_of_nat (length test)) ;;
      test <- lift (merge_left dic DObject (map CStr test) dic_df) ;;
      test <- lift (iloc_cols test [0; 1]) ;;
      col <- lift (iloc_col test 1) ;;
      lift (join_labels " | " (svalues col))
  | _ => raise AttributeError
  end.

Fixpoint composite_labels (dic : string) (dic_df : DataFrame) (values : list cell)
  : io (list (list cell)) :=
  match values with
  | [] => ret []
  | v :: rest =>
      label <- composite_label dic dic_df v ;;
      rows <- composite_labels dic dic_df rest ;;
      ret ([v; CStr label] :: rows)
  end.

(** The branch [if not type(x) == pandas.core.frame.DataFrame]. *)
Definition label_vector (x : vector) (dic lang : string) : io label_output :=
  dic_df <- get_ilostat_dic dic lang ;;
  y <- (if (Py.find (Py.lower dic) "note_" =? -1)%Z then
          let '(ty, values) := frame_of x dic in
          y <- lift (merge_left dic ty values dic_df) ;;
          lift (iloc_cols y [0; 1])
        else
          match x with
          | inl _ => raise AttributeError   (* a list has no [drop_duplicates] *)
          | inr s =>
              let z := List.filter (fun c => negb (bool_decide (c = CNaN)))
                                   (unique (svalues s)) in
              (* [z[dic]] and the last merge need the series to be called [dic] *)
              (if bool_decide (sname s = Some dic) then ret tt else raise KeyError) ;;
              z <- composite_labels dic dic_df z ;;
              let z := mkDataFrame [(dic, DObject); (dic +:+ ".label", DObject)] z in
              let '(ty, values) := frame_of x dic in
              y <- lift (merge_left dic ty values z) ;;
              lift (iloc_cols y [0; 1])
          end) ;;
  col <- lift (iloc_col y 1) ;;
  ret (YList (svalues col)).

Definition label_ilostat (x : label_input) (dic : string) (code : list string)
           (lang : string) : io label_output :=
  let y := empty_frame in
  if negb (Py.truthy_str dic) then
    print "Dictionary information is missing" ;;
    ret (YFrame y)
  else
    match x with
    | XList l => label_vector (inl l) dic lang
    | XSeries s => label_vector (inr s) dic lang
    | XFrame _ =>
        (* [if not code: if code[0] == 'all': ...] *)
        (if negb (Py.truthy_list code)
         then (c <- lift (getitem code 0) ;; ret tt)
         else ret tt) ;;
        print (repr_list ilostat_cols_ref) ;;
        ret (YFrame y)
    end.

End Program.

(** ** Sequencing results, and the properties of rows used below *)

(** [k] after [r], when [r] did not raise. *)
Definition and_then {A B} (r : exn + A) (k : A -> exn + B) : exn + B :=
  match r with
  | inl e => inl e
  | inr a => k a
  end.

(** The row passes slot [index]: the slot is empty, or the value in that
    column is a string in which the pattern ['|'.join(slot)] is found. *)
Definition row_matches (E : environment) (filters : list filter_entry)
           (row : list cell) (index : nat) : bool :=
  match filters !! index with
  | Some f =>
      if truthy_entry f then
        match re_compile E (join_entry "|" f), cell_at row index with
        | Some matcher, CStr s => matcher s
        | _, _ => false
        end
      else true
  | None => true
  end.



(** The label a dictionary laid out as (code, label, ...) gives to a code:
    the second cell of the first row whose first cell is the code. *)
Definition dictionary_label (dic_df : DataFrame) (c : cell) : cell :=
  match List.filter (fun r => bool_decide (cell_at r 0 = c)) (rows dic_df) with
  | r :: _ => cell_at r 1
  | [] => CNaN
  end.

(** The codes of a dictionary, row by row. *)
Definition dictionary_codes (dic_df : DataFrame) : list cell :=
  map (fun r => cell_at r 0) (rows dic_df).

Definition is_text (c : cell) : bool :=
  match c with CStr _ => true | _ => false end.

Definition cell_text (c : cell) : string :=
  match c with CStr s => s | _ => EmptyString end.

(** The label of a composite note: the labels of its elementary codes,
    in their order, joined with [" | "]. *)
Definition composite_text (dic_df : DataFrame) (v : string) : string :=
  Py.join " | " (map (fun part => cell_text (dictionary_label dic_df (CStr part)))
                     (Py.split "_" v)).


(** Every elementary code of the composite [v] has a text label. *)
Definition resolvable (dic_df : DataFrame) (v : string) : bool :=
  forallb (fun part => is_text (dictionary_label dic_df (CStr part))) (Py.split "_" v).

(** A value of a note column: missing, or a composite that resolves. *)
Definition note_value (dic_df : DataFrame) (c : cell) : bool :=
  match c with
  | CStr v => resolvable dic_df v
  | CNaN => true
  | CNum _ => false
  end.

(** The mask [dat.iloc[:, index].str.contains(test_item)] computes for a
    matcher, and what [dat[mask]] reads in it. *)
Definition mask_of (matcher : string -> bool) (index : nat) (row : list cell) : option bool :=
  match cell_at row index with
  | CStr x => Some (matcher x)
  | _ => None
  end.

Definition mask_true (b : option bool) : bool :=
  match b with Some true => true | _ => false end.

(** The datasets of [ids], fetched one after the other and appended to
    [dat] in that order. *)
Fixpoint fetch_and_append (E : environment) (ids : list string) (dat : DataFrame)
         (segment : string) (filters : list filter_entry) (cache cache_update : bool)
         (cache_dir cache_format : string) (quiet : bool) : io DataFrame :=
  match ids with
  | [] => ret dat
  | id :: rest =>
      other <- get_ilostat_dat E id segment filters cache cache_update
                               cache_dir cache_format quiet ;;
      fetch_and_append E rest (df_append dat other) segment filters cache cache_update
                       cache_dir cache_format quiet
  end.

(** The datasets of [ids], fetched one after the other by
    [get_ilostat_dat], in a list. *)
Fixpoint fetch_each (E : environment) (ids : list string)
         (segment : string) (filters : list filter_entry) (cache cache_update : bool)
         (cache_dir cache_format : string) (quiet : bool) : io (list DataFrame) :=
  match ids with
  | [] => ret []
  | id :: rest =>
      d <- get_ilostat_dat E id segment filters cache cache_update
                           cache_dir cache_format quiet ;;
      ds <- fetch_each E rest segment filters cache cache_update
                       cache_dir cache_format quiet ;;
      ret (d :: ds)
  end.

(** A text of the layout DD.MM.YYYY: ten characters, with a point in the
    third and in the sixth place. *)
Definition date_layout (s : string) : bool :=
  (String.length s =? 10)
  && match String.get 2 s, String.get 5 s with
     | Some p, Some q => Ascii.eqb p "." && Ascii.eqb q "."
     | _, _ => false
     end.

(** The character [c] occurs in [s]. *)
Fixpoint occurs (c : ascii) (s : string) : bool :=
  match s with
  | EmptyString => false
  | String a s' => Ascii.eqb a c || occurs c s'
  end.

(** Every row has one cell per column. *)
Definition rectangular (df : DataFrame) : Prop :=
  Forall (fun row => length row = length (columns df)) (rows df).


(** The cache directory [get_ilostat_dat] works in. *)
Definition effective_cache_dir (E : environment) (cache_dir : string) : string :=
  if Py.truthy_str cache_dir then cache_dir else tempdir E +:+ "/ilostat".

(** The text searched by [get_ilostat_toc] in a row: the cells of the
    title columns, put end to end. *)
Definition title_of (row : list cell) : string :=
  fold_right (fun i r => cell_text (cell_at row i) +:+ r) EmptyString title_columns.

(** Every title column of the row holds a text. *)
Definition titled (row : list cell) : bool :=
  forallb (fun i => is_text (cell_at row i)) title_columns.

(** What [search] is looked for as. *)
Definition search_text (search : search_arg) : string :=
  match search with
  | SearchList l => Py.join " and " l
  | SearchStr s => s
  end.

(** ** Sample data *)

Module Sample.

(** A matcher that agrees with [re] on the patterns the package builds
    from plain codes: alternatives separated by [|], each found as a
    substring. *)
Definition literal_engine (pat : string) : option (string -> bool) :=
  Some (fun s => existsb (fun a => Py.contains a s) (Py.split "|" pat)).

Definition toc : DataFrame :=
  mkDataFrame
    [("id", DObject); ("indicator", DObject); ("last.update", DObject)]
    [ [CStr "AB"; CStr "AB"; CStr "02.01.2020"];
      [CStr "A"; CStr "A"; CStr "01.01.2020"] ].

(** A table of contents with two unrelated datasets. *)
Definition catalog : DataFrame :=
  mkDataFrame
    [("id", DObject); ("indicator", DObject); ("last.update", DObject)]
    [ [CStr "CPI_ACPI_COI_RT_A"; CStr "CPI_ACPI_COI_RT"; CStr "02.01.2020"];
      [CStr "UNE_TUNE_SEX_AGE_NB_A"; CStr "UNE_TUNE_SEX_AGE_NB"; CStr "01.01.2020"] ].

Definition dataset_columns : list (string * dtype) :=
  [("collection", DObject); ("ref_area", DObject); ("source", DObject);
   ("indicator", DObject); ("sex", DObject); ("classif1", DObject);
   ("classif2", DObject); ("time", DObject); ("obs_value", DNumeric);
   ("obs_status", DObject); ("note_classif", DObject); ("note_indicator", DObject);
   ("note_source", DObject)].

Definition observation (sex : string) (value : Z) : list cell :=
  [CStr "STI"; CStr "FRA"; CStr "BA:1"; CStr "A"; CStr sex; CStr "AGE_YTHADULT_YGE15";
   CStr "NOC"; CStr "2019"; CNum value; CStr "R"; CStr "T2"; CStr "I11"; CStr "S3"].

Definition fresh : DataFrame :=
  mkDataFrame dataset_columns [observation "SEX_T" 12; observation "SEX_F" 5].

Definition cached : DataFrame :=
  mkDataFrame dataset_columns [observation "SEX_T" 11].

Definition dictionary : DataFrame :=
  mkDataFrame
    [("note_source", DObject); ("note_source.label", DObject); ("note_source.sort", DObject)]
    [ [CStr "A"; CStr "Alpha"; CStr "1"];
      [CStr "B"; CStr "Beta"; CStr "2"] ].

Definition sex_dictionary : DataFrame :=
  mkDataFrame
    [("sex", DObject); ("sex.label", DObject); ("sex.sort", DObject)]
    [ [CStr "SEX_T"; CStr "Sex: Total"; CStr "1"];
      [CStr "SEX_F"; CStr "Sex: Female"; CStr "3"] ].

Definition raw_url : string := base_url +:+ "indicator/A.csv.gz".

Definition answers (url : string) : response :=
  if String.eqb url (toc_url "indicator" "en") then Response 200 "toc"
  else if String.eqb url raw_url then Response 200 "fresh"
  else if String.eqb url (dic_url "note_source" "en") then Response 200 "notes"
  else if String.eqb url (dic_url "sex" "en") then Response 200 "sex"
  else if String.eqb url (toc_url "ref_area" "en") then Response 200 "<html>"
  else Response 404 "Not Found".

Definition env : environment :=
  mkEnvironment
    literal_engine
    answers
    (fun body => if String.eqb body "toc" then inr toc else inl ValueError)
    (fun body => if String.eqb body "notes" then inr dictionary
                 else if String.eqb body "sex" then inr sex_dictionary
                 else inl ValueError)
    (fun path body => if String.eqb body "fresh" then inr fresh
                      else if String.eqb body "cached" then inr cached
                      else inl OSError)
    (fun body => inl ValueError)
    "/tmp".

(** A disk holding the cache entry of dataset [A] for 01.01.2020. *)
Definition disk : world :=
  mkWorld {[ "/cache/indicator-A-20200101.csv.gz" := "cached" ]} {[ "/cache" ]} [] [].

(** A disk holding the cache entry of dataset [AB] for 02.01.2020. *)
Definition disk_AB : world :=
  mkWorld {[ "/cache/indicator-AB-20200102.csv.gz" := "cached" ]} {[ "/cache" ]} [] [].

Definition blank : world := mkWorld ∅ ∅ [] [].

(** Positional filters of a dataset that stop at the slot of [sex]. *)
Definition sex_filters : list filter_entry :=
  [FList []; FList []; FList []; FList []; FList ["SEX_F"; "SEX_M"]].

(** The thirteen positional filters of a dataset, with a value asked for
    in the slot of [obs_value]. *)
Definition value_filters : list filter_entry :=
  [FList []; FList []; FList []; FList []; FList []; FList []; FList []; FList [];
   FList ["12"]; FList []; FList []; FList []; FList []].

(** A frame with a column [id] and no row. *)
Definition no_ids : DataFrame := mkDataFrame [("id", DObject)] [].

End Sample.

(** A table of contents with the fourteen columns of the served one. *)
Module Contents.

Definition toc_columns : list (string * dtype) :=
  [("id", DObject); ("indicator", DObject); ("indicator.label", DObject);
   ("freq", DObject); ("freq.label", DObject); ("size", DObject);
   ("data.start", DObject); ("data.end", DObject); ("last.update", DObject);
   ("n.records", DNumeric); ("collection", DObject); ("collection.label", DObject);
   ("subject", DObject); ("subject.label", DObject)].

Definition unemployment : list cell :=
  [CStr "UNE_TUNE_SEX_AGE_NB_A"; CStr "UNE_TUNE_SEX_AGE_NB";
   CStr "Unemployment by sex and age"; CStr "A"; CStr "Annual"; CStr "1 MB";
   CStr "1990"; CStr "2019"; CStr "02.01.2020"; CNum 1000;
   CStr "STI"; CStr "Short term indicators"; CStr "UNE"; CStr "Unemployment"].

Definition prices : list cell :=
  [CStr "CPI_ACPI_COI_RT_A"; CStr "CPI_ACPI_COI_RT";
   CStr "Consumer price index"; CStr "A"; CStr "Annual"; CStr "2 MB";
   CStr "1980"; CStr "2019"; CStr "01.01.2020"; CNum 2000;
   CStr "STI"; CStr "Short term indicators"; CStr "CPI"; CStr "Consumer prices"].

Definition toc : DataFrame := mkDataFrame toc_columns [unemployment; prices].

Definition env : environment :=
  mkEnvironment
    Sample.literal_engine
    (fun url => if String.eqb url (toc_url "indicator" "en") then Response 200 "toc"
                else Response 404 "Not Found")
    (fun body => if String.eqb body "toc" then inr toc else inl ValueError)
    (fun body => inl ValueError)
    (fun path body => inl OSError)
    (fun body => inl ValueError)
    "/tmp".

End Contents.

(** * Properties *)

(** ** Python strings, on examples *)

Example lower_ex : Py.lower "Modelled_Estimates" = "modelled_estimates".
Proof. reflexivity. Qed.

Example find_ex : Py.find "modelled_estimates" "model" = 0%Z /\ Py.find "indicator" "model" = (-1)%Z.
Proof. split; reflexivity. Qed.

Example join_chars_ex : Py.join "|" (Py.chars "SEX_T") = "S|E|X|_|T".
Proof. reflexivity. Qed.

Example split_ex : Py.split "_" "A__B" = ["A"; ""; "B"] /\ Py.split "_" "" = [""].
Proof. split; reflexivity. Qed.

Example replace_ex :
  Py.replace "/c/indicator-X-20200101.csv" ".csv" ".csv.gz" = "/c/indicator-X-20200101.csv.gz"
  /\ Py.replace "a.b.b" ".b" "-" = "a--"
  /\ Py.replace "ab" "" "-" = "-a-b-".
Proof. repeat split; reflexivity. Qed.

(** ** The filter step *)

(** Closes the case where the turn [Hrun] of the loop has raised: the
    table is the one before the turn and the exception is not an
    [OSError]. *)
Ltac raised Hrun :=
  injection Hrun as <- <-; repeat split; [congruence | discriminate].

Section FilterFacts.

Context (E : environment) (filters : list filter_entry).

(** One turn of the loop, case by case. *)
Lemma filter_body_run index dat :
  filter_body E filters index dat =
    match filters !! index with
    | None => (dat, inl IndexError)
    | Some f =>
        if truthy_entry f then
          match columns dat !! index with
          | None => (dat, inl IndexError)
          | Some (_, DNumeric) => (dat, inl AttributeError)
          | Some (_, DObject) =>
              match re_compile E (join_entry "|" f) with
              | None => (dat, inl ReError)
              | Some matcher =>
                  let mask := map (mask_of matcher index) (rows dat) in
                  if mask_has_na mask then (dat, inl ValueError)
                  else (mkDataFrame (columns dat) (select_rows (rows dat) mask), inr tt)
              end
          end
        else (dat, inr tt)
    end.
Proof.
  unfold filter_body, bind, lift, getitem, get, put, ret.
  destruct (filters !! index) as [f|]; [|reflexivity].
  destruct (truthy_entry f); [|reflexivity].
  unfold iloc_col.
  destruct (columns dat !! index) as [[n ty]|]; [|reflexivity].
  unfold str_contains; cbn [sdtype svalues].
  destruct ty; [|reflexivity].
  destruct (re_compile E (join_entry "|" f)) as [matcher|]; [|reflexivity].
  rewrite List.map_map. unfold getitem_mask, mask_of.
  destruct (mask_has_na _); reflexivity.
Qed.

Lemma select_rows_map (g : list cell -> option bool) rs :
  select_rows rs (map g rs) = List.filter (fun r => mask_true (g r)) rs.
Proof.
  unfold select_rows.
  induction rs as [|r rs IH]; [reflexivity|].
  cbn. change (match g r with Some true => true | _ => false end) with (mask_true (g r)).
  destruct (mask_true (g r)); cbn; rewrite IH; reflexivity.
Qed.

Lemma mask_has_na_false (g : list cell -> option bool) rs :
  mask_has_na (map g rs) = false <-> Forall (fun r => is_Some (g r)) rs.
Proof.
  unfold mask_has_na. induction rs as [|r rs IH]; cbn.
  - split; [constructor | reflexivity].
  - rewrite orb_false_iff, IH. split.
    + intros [Hr Hrs]. constructor; [|exact Hrs].
      destruct (g r); [eexists; reflexivity | discriminate].
    + intros H. inversion H as [|? ? [b Hb] Hrs]; subst.
      rewrite Hb. split; [reflexivity | exact Hrs].
Qed.

(** For a slot that holds a pattern, the mask entry of a row is [True]
    exactly when the row passes the slot. *)
Lemma mask_true_row_matches index f matcher row :
  filters !! index = Some f -> truthy_entry f = true ->
  re_compile E (join_entry "|" f) = Some matcher ->
  mask_true (mask_of matcher index row) = row_matches E filters row index.
Proof.
  intros Hf Ht Hc. unfold row_matches, mask_of, mask_true.
  rewrite Hf, Ht, Hc.
  destruct (cell_at row index) as [s| |v]; [|reflexivity..].
  destruct (matcher s); reflexivity.
Qed.

Lemma filter_and {A} (p q : A -> bool) l :
  List.filter q (List.filter p l) = List.filter (fun a => p a && q a) l.
Proof.
  induction l as [|a l IH]; [reflexivity|].
  cbn. destruct (p a); cbn; [destruct (q a)|]; rewrite IH; reflexivity.
Qed.

Lemma filter_ext_in {A} (p q : A -> bool) l :
  (forall a, In a l -> p a = q a) -> List.filter p l = List.filter q l.
Proof.
  induction l as [|a l IH]; intros H; [reflexivity|].
  cbn. rewrite (H a (or_introl eq_refl)), IH; [reflexivity|].
  intros b Hb. apply H. right. exact Hb.
Qed.

Lemma filter_all {A} (p : A -> bool) l :
  (forall a, In a l -> p a = true) -> List.filter p l = l.
Proof.
  induction l as [|a l IH]; intros H; [reflexivity|].
  cbn. rewrite (H a (or_introl eq_refl)), IH; [reflexivity|].
  intros b Hb. apply H. right. exact Hb.
Qed.

(** What the loop over [indices] leaves: the header is untouched, the
    exception (if any) is never an [OSError], and after a normal end the
    rows are those which pass every slot of [indices]. *)
Lemma for_each_filter_body indices :
  forall dat dat' r,
    for_each indices (filter_body E filters) dat = (dat', r) ->
    columns dat' = columns dat
    /\ (forall e, r = inl e -> e <> OSError)
    /\ (r = inr tt ->
        rows dat' = List.filter (fun row => forallb (row_matches E filters row) indices)
                                (rows dat)).
Proof.
  induction indices as [|index indices IH]; intros dat dat' r Hrun.
  - cbn in Hrun. unfold ret in Hrun. injection Hrun as <- <-.
    repeat split; [discriminate|].
    intros _. cbn. symmetry. apply filter_all. reflexivity.
  - cbn [for_each] in Hrun. unfold bind in Hrun.
    rewrite filter_body_run in Hrun.
    destruct (filters !! index) as [f|] eqn:Hf; [|raised Hrun].
    destruct (truthy_entry f) eqn:Ht.
    + destruct (columns dat !! index) as [[n [|]]|] eqn:Hcol;
        [| raised Hrun | raised Hrun].
      destruct (re_compile E (join_entry "|" f)) as [matcher|] eqn:Hc; [|raised Hrun].
      cbv zeta in Hrun.
      destruct (mask_has_na _) eqn:Hna; [raised Hrun|].
      apply IH in Hrun as (Hcols & Hexn & Hrows). cbn in Hcols, Hrows.
      repeat split; [exact Hcols | exact Hexn |].
      intros Hr. rewrite (Hrows Hr), select_rows_map, filter_and.
      apply filter_ext_in. intros row _. cbn [forallb].
      rewrite (mask_true_row_matches index f matcher row Hf Ht Hc). reflexivity.
    + apply IH in Hrun as (Hcols & Hexn & Hrows).
      repeat split; [exact Hcols | exact Hexn |].
      intros Hr. rewrite (Hrows Hr). apply filter_ext_in. intros row _.
      cbn [forallb]. unfold row_matches at 2. rewrite Hf, Ht. reflexivity.
Qed.

(** The handler [except OSError: pass] never runs: the filter step gives
    back what the loop gives. *)
Lemma apply_filters_loop dat :
  apply_filters E filters dat =
    if Py.truthy_list filters then
      match for_each (range 0 (min (length (columns dat)) (length filters)))
                     (filter_body E filters) dat with
      | (dat', inr _) => inr dat'
      | (_, inl e) => inl e
      end
    else inr dat.
Proof.
  unfold apply_filters, filter_step.
  destruct (Py.truthy_list filters); [|reflexivity].
  unfold bind, get, try_except_OSError.
  destruct (for_each _ _ dat) as [dat' [e|[]]] eqn:Hrun; [|reflexivity].
  apply for_each_filter_body in Hrun as (_ & Hexn & _).
  destruct e; try reflexivity. exfalso. exact (Hexn OSError eq_refl eq_refl).
Qed.


Lemma frame_eta dat : mkDataFrame (columns dat) (rows dat) = dat.
Proof. destruct dat; reflexivity. Qed.


(** A frame whose rows all pass the slots of [indices] is left as it is. *)
Lemma for_each_filter_stable indices :
  forall dat,
    (forall index, In index indices ->
       exists f, filters !! index = Some f /\
         (truthy_entry f = true ->
          (exists n, columns dat !! index = Some (n, DObject))
          /\ exists matcher, re_compile E (join_entry "|" f) = Some matcher
             /\ Forall (fun row => mask_of matcher index row = Some true) (rows dat))) ->
    for_each indices (filter_body E filters) dat = (dat, inr tt).
Proof.
  induction indices as [|index indices IH]; intros dat H; [reflexivity|].
  cbn [for_each]. unfold bind. rewrite filter_body_run.
  destruct (H index (or_introl eq_refl)) as (f & Hf & Hslot). rewrite Hf.
  assert (Hrest : for_each indices (filter_body E filters) dat = (dat, inr tt)).
  { apply IH. intros i Hi. apply H. right. exact Hi. }
  destruct (truthy_entry f); [|exact Hrest].
  destruct (Hslot eq_refl) as ([n Hcol] & matcher & Hc & Hrows).
  rewrite Hcol, Hc. cbv zeta.
  assert (mask_has_na (map (mask_of matcher index) (rows dat)) = false) as ->.
  { apply mask_has_na_false. eapply List.Forall_impl; [|exact Hrows].
    intros row Hrow. rewrite Hrow. eexists. reflexivity. }
  rewrite select_rows_map, filter_all, frame_eta; [exact Hrest|].
  intros row Hin. rewrite List.Forall_forall in Hrows.
  rewrite (Hrows row Hin). reflexivity.
Qed.

(** After a normal end, every slot of [indices] exists, and a slot that
    holds a pattern was applied to a text column with a pattern that
    compiles. *)
Lemma for_each_filter_static indices :
  forall dat dat',
    for_each indices (filter_body E filters) dat = (dat', inr tt) ->
    forall index, In index indices ->
      exists f, filters !! index = Some f /\
        (truthy_entry f = true ->
         (exists n, columns dat !! index = Some (n, DObject))
         /\ exists matcher, re_compile E (join_entry "|" f) = Some matcher).
Proof.
  induction indices as [|i indices IH]; intros dat dat' Hrun index Hin; [destruct Hin|].
  cbn [for_each] in Hrun. unfold bind in Hrun. rewrite filter_body_run in Hrun.
  destruct (filters !! i) as [f|] eqn:Hf; [|discriminate].
  destruct (truthy_entry f) eqn:Ht.
  - destruct (columns dat !! i) as [[n [|]]|] eqn:Hcol; [|discriminate..].
    destruct (re_compile E (join_entry "|" f)) as [matcher|] eqn:Hc; [|discriminate].
    cbv zeta in Hrun. destruct (mask_has_na _); [discriminate|].
    destruct Hin as [<-|Hin].
    + exists f. rewrite Ht. split; [exact Hf|]. intros _. eauto.
    + exact (IH _ _ Hrun index Hin).
  - destruct Hin as [<-|Hin].
    + exists f. split; [exact Hf|]. rewrite Ht. discriminate.
    + exact (IH _ _ Hrun index Hin).
Qed.

(** Running the loop on its own result changes nothing. *)
Lemma for_each_filter_twice indices dat dat' :
  for_each indices (filter_body E filters) dat = (dat', inr tt) ->
  for_each indices (filter_body E filters) dat' = (dat', inr tt).
Proof.
  intros Hrun. apply for_each_filter_stable. intros index Hin.
  destruct (for_each_filter_static _ _ _ Hrun index Hin) as (f & Hf & Hslot).
  destruct (for_each_filter_body _ _ _ _ Hrun) as (Hcols & _ & Hrows).
  exists f. split; [exact Hf|]. intros Ht.
  destruct (Hslot Ht) as (Hcol & matcher & Hc).
  rewrite Hcols. split; [exact Hcol|]. exists matcher. split; [exact Hc|].
  rewrite (Hrows eq_refl). apply List.Forall_forall. intros row Hrow.
  apply List.filter_In in Hrow as [_ Hrow].
  rewrite List.forallb_forall in Hrow. specialize (Hrow index Hin).
  rewrite <- (mask_true_row_matches index f matcher row Hf Ht Hc) in Hrow.
  destruct (mask_of matcher index row) as [[|]|]; [reflexivity | discriminate..].
Qed.

End FilterFacts.

(** C9. Filter idempotence: applying the filter step to its own result,
    with the same filter list, gives the same table again; and when the
    first application raises, so does the whole. *)
Theorem filter_idempotent (E : environment) (filters : list filter_entry) (dat : DataFrame) :
  and_then (apply_filters E filters dat) (apply_filters E filters)
  = apply_filters E filters dat.
Proof.
  rewrite (apply_filters_loop E filters dat).
  destruct (Py.truthy_list filters) eqn:Htruthy.
  - destruct (for_each _ _ dat) as [dat' [e|[]]] eqn:Hrun; [reflexivity|].
    cbn [and_then]. rewrite apply_filters_loop, Htruthy.
    destruct (for_each_filter_body _ _ _ _ _ _ Hrun) as (Hcols & _ & _).
    rewrite Hcols, (for_each_filter_twice _ _ _ _ _ Hrun). reflexivity.
  - cbn [and_then]. rewrite apply_filters_loop, Htruthy. reflexivity.
Qed.



(** Five slots for thirteen columns: the fifth keeps the rows of one sex. *)
Example filter_sex :
  apply_filters Sample.env Sample.sex_filters Sample.fresh
  = inr (mkDataFrame Sample.dataset_columns [Sample.observation "SEX_F" 5]).
Proof. vm_compute. reflexivity. Qed.

(** C3, as amended.  The handler of the filter step is [except OSError],
    and no step of the loop raises an [OSError]: whatever the loop raises
    ([IndexError], [AttributeError] for a numeric column, [re.error] for a
    malformed pattern, [ValueError] for a missing value in the column)
    reaches the caller, and the step returns a table exactly when the loop
    ends normally, the table being the one the loop has reached. *)
Theorem filter_errors_reach_caller (E : environment) (filters : list filter_entry)
        (dat dat' : DataFrame) (r : exn + unit) :
  Py.truthy_list filters = true ->
  for_each (range 0 (min (length (columns dat)) (length filters)))
           (filter_body E filters) dat = (dat', r) ->
  match r with
  | inl e => apply_filters E filters dat = inl e /\ e <> OSError
  | inr _ => apply_filters E filters dat = inr dat'
  end.
Proof.
  intros Htruthy Hrun.
  rewrite apply_filters_loop, Htruthy, Hrun.
  destruct r as [e|[]]; [|reflexivity].
  split; [reflexivity|].
  destruct (for_each_filter_body _ _ _ _ _ _ Hrun) as (_ & Hexn & _).
  exact (Hexn e eq_refl).
Qed.

Lemma filter_errors_reach_caller_witness :
  apply_filters Sample.env Sample.value_filters Sample.fresh = inl AttributeError
  /\ AttributeError <> OSError.
Proof.
  apply (filter_errors_reach_caller Sample.env Sample.value_filters Sample.fresh
           Sample.fresh (inl AttributeError)); reflexivity.
Defined.

(** The claim as stated fails: a value asked for in the slot of the numeric
    column [obs_value] makes [.str] raise [AttributeError], and the caller
    gets the exception, not a table. *)
Lemma filter_raises_on_numeric_column :
  apply_filters Sample.env Sample.value_filters Sample.fresh = inl AttributeError
  /\ forall dat', apply_filters Sample.env Sample.value_filters Sample.fresh <> inr dat'.
Proof. split; [reflexivity | discriminate]. Qed.

(** ** The table of contents *)

(** C4. When the remote table of contents is served but cannot be parsed,
    [get_ilostat_toc] raises the parser's exception: nothing is printed and
    no table is returned. *)
Theorem toc_parse_failure_raises (E : environment) (segment lang : string)
        (search : search_arg) (filters : list filter_entry) (w : world)
        (seg lg : string) (status : nat) (body : string) (e : exn) :
  normalize_segment segment lang = (seg, lg) ->
  server E (toc_url seg lg) = Response status body ->
  http_ok status = true ->
  parse_toc E body = inl e ->
  get_ilostat_toc E segment lang search filters w
  = (log_request (toc_url seg lg) w, inl e).
Proof.
  intros Hseg Hserver Hok Hparse.
  unfold get_ilostat_toc. rewrite Hseg.
  unfold bind, urlopen, lift. rewrite Hserver, Hok, Hparse. reflexivity.
Qed.

Lemma toc_parse_failure_raises_witness :
  get_ilostat_toc Sample.env "ref_area" "en" (SearchList []) [] Sample.blank
  = (log_request (toc_url "ref_area" "en") Sample.blank, inl ValueError).
Proof.
  apply (toc_parse_failure_raises Sample.env "ref_area" "en" (SearchList []) []
           Sample.blank "ref_area" "en" 200 "<html>" ValueError); reflexivity.
Defined.

(** The same when the file is not served at all: urllib's error leaves the
    function. *)
Lemma toc_missing_raises (E : environment) (segment lang : string)
      (search : search_arg) (filters : list filter_entry) (w : world)
      (seg lg : string) :
  normalize_segment segment lang = (seg, lg) ->
  match server E (toc_url seg lg) with
  | Unreachable => True
  | Response status _ => http_ok status = false
  end ->
  get_ilostat_toc E segment lang search filters w
  = (log_request (toc_url seg lg) w, inl OSError).
Proof.
  intros Hseg Hserver.
  unfold get_ilostat_toc. rewrite Hseg. unfold bind, urlopen.
  destruct (server E (toc_url seg lg)) as [|status body]; [reflexivity|].
  rewrite Hserver. reflexivity.
Qed.

(** ** The raw fetch *)

(** C5. In the branch of the modelled estimates, when the remote file is
    missing, the handler prints its message (unless quiet) and then reads
    the variable [tfile], which that branch never assigned: the call raises
    [UnboundLocalError] instead of returning an empty table. *)
Theorem raw_stata_missing (E : environment) (id cache_file cache_dir cache_format : string)
        (quiet : bool) (w : world) (status : nat) (body : string) :
  let url := base_url +:+ "modelled_estimates" +:+ "/" +:+ id +:+ ".dta" in
  server E url = Response status body ->
  http_ok status = false ->
  get_ilostat_raw E id "modelled_estimates" cache_file cache_dir cache_format quiet w
  = (if quiet then log_request url w
     else fst (print (missing_msg id) (log_request url w)),
     inl UnboundLocalError).
Proof.
  intros url Hserver Hok.
  unfold get_ilostat_raw. cbn [String.eqb Ascii.eqb Bool.eqb].
  change (String.eqb "modelled_estimates" "modelled_estimates") with true. cbv iota.
  fold url.
  unfold bind at 1. unfold try_except_OSError.
  unfold bind at 1. unfold urlopen. rewrite Hserver, Hok. cbn [is_OSError].
  destruct quiet; reflexivity.
Qed.

Lemma raw_stata_missing_witness :
  get_ilostat_raw Sample.env "X" "modelled_estimates" "/cache/f.csv.gz" "/cache" "csv.gz"
                  false Sample.blank
  = (mkWorld ∅ ∅ [missing_msg "X"] [base_url +:+ "modelled_estimates/X.dta"],
     inl UnboundLocalError).
Proof.
  apply (raw_stata_missing Sample.env "X" "/cache/f.csv.gz" "/cache" "csv.gz" false
           Sample.blank 404 "Not Found"); reflexivity.
Defined.

(** The sibling branch does what the specification asks: for a file that
    was downloaded (into a directory that exists) but cannot be read, the
    temporary file is removed, the message is printed unless quiet, and an
    empty table is returned. *)
Lemma raw_csv_unreadable (E : environment) (id segment cache_file cache_dir cache_format : string)
      (quiet : bool) (w : world) (status : nat) (body : string) :
  let url := base_url +:+ segment +:+ "/" +:+ id +:+ ".csv.gz" in
  let tfile := Py.replace cache_file ("." +:+ cache_format) ".csv.gz" in
  String.eqb segment "modelled_estimates" = false ->
  server E url = Response status body ->
  writable w tfile = true ->
  parse_dataset E tfile body = inl OSError ->
  let r := get_ilostat_raw E id segment cache_file cache_dir cache_format quiet w in
  snd r = inr empty_frame
  /\ files (fst r) !! tfile = None
  /\ stdout (fst r) = stdout w ++ (if quiet then [] else [missing_msg id]).
Proof.
  intros url tfile Hseg Hserver Hwrite Hparse.
  unfold get_ilostat_raw. rewrite Hseg. fold url tfile.
  unfold bind, try_except_OSError, requests_get, write_file, read_file, lift, os_remove,
    print, ret.
  rewrite Hserver.
  change (writable (log_request url w) tfile) with (writable w tfile). rewrite Hwrite.
  cbn [files]. rewrite lookup_insert_eq, Hparse. cbn [is_OSError].
  destruct quiet; cbn [negb files]; rewrite lookup_insert_eq; cbn.
  - repeat split; [apply lookup_delete_eq | symmetry; apply app_nil_r].
  - repeat split. apply lookup_delete_eq.
Qed.

(** ** The cache *)

(** ** The orchestrator *)

(** C10, as amended.  With a data frame as [id], [get_ilostat] never
    returns and touches neither the network, the disk nor the console: it
    raises [AttributeError] when the frame has no column [id],
    [IndexError] when that column has no value, and otherwise reaches
    [return dat] with [dat] never assigned, which raises
    [UnboundLocalError]. *)
Theorem get_ilostat_frame_fails (E : environment) (df : DataFrame) (segment : string)
        (filters : list filter_entry) (cache cache_update : bool)
        (cache_dir cache_format : string) (quiet : bool) (w : world) :
  get_ilostat E (IdFrame df) segment filters cache cache_update cache_dir cache_format quiet w
  = (w, inl match getitem_col df "id" with
            | inl _ => AttributeError
            | inr ids => match svalues ids with
                         | [] => IndexError
                         | _ :: _ => UnboundLocalError
                         end
            end).
Proof.
  unfold get_ilostat, getattr_col.
  unfold bind at 1. unfold bind at 1. unfold lift at 1.
  destruct (getitem_col df "id") as [e|ids]; [reflexivity|].
  destruct (svalues ids) as [|c cs]; [reflexivity|].
  unfold unique. cbn [unique_from].
  rewrite bool_decide_eq_false_2 by apply not_elem_of_nil.
  destruct (unique_from [c] cs); reflexivity.
Qed.

(** The claim as stated fails for a frame without rows: the exception is
    not the unbound-name error. *)
Lemma get_ilostat_empty_frame :
  snd (get_ilostat Sample.env (IdFrame Sample.no_ids) "indicator" [] true true
                   "/cache" "csv.gz" false Sample.blank)
  = inl IndexError
  /\ snd (get_ilostat Sample.env (IdFrame Sample.no_ids) "indicator" [] true true
                      "/cache" "csv.gz" false Sample.blank)
     <> inl UnboundLocalError.
Proof. split; [reflexivity | discriminate]. Qed.

(** The decision of [get_ilostat_dat], for the date it takes from the
    table of contents: [first] is the first value of [last.update] among
    the rows that the filter [[id]] lets through. *)
Section CacheDecision.

Context (E : environment) (id segment : string) (filters : list filter_entry)
        (cache_dir cache_format : string) (quiet : bool) (w w1 : world)
        (toc : DataFrame) (col : Series) (first : cell) (rest : list cell)
        (date : string).

Hypothesis Htoc :
  get_ilostat_toc E segment "en" (SearchList []) [FStr id] w = (w1, inr toc).
Hypothesis Hcol : getitem_col toc "last.update" = inr col.
Hypothesis Hvalues : svalues col = first :: rest.
Hypothesis Hdate : reformat_date first = inr date.
Hypothesis Hdir : Py.truthy_str cache_dir = true.
Hypothesis Hisdir : cache_dir ∈ dirs w1.

(** The entry is there: it is read, nothing is requested or written. *)
Lemma get_ilostat_dat_fresh content :
  files w1 !! cache_file_name cache_dir segment id date cache_format = Some content ->
  let r := get_ilostat_dat E id segment filters true true cache_dir cache_format quiet w in
  snd r = and_then (parse_dataset E (cache_file_name cache_dir segment id date cache_format)
                                  content)
                   (apply_filters E filters)
  /\ requested (fst r) = requested w1
  /\ files (fst r) = files w1.
Proof.
  set (cache_file := cache_file_name cache_dir segment id date cache_format).
  intros Hfile r.
  assert (Hr : exists w2,
             r = (w2, and_then (parse_dataset E cache_file content) (apply_filters E filters))
             /\ requested w2 = requested w1 /\ files w2 = files w1).
  { subst r. unfold get_ilostat_dat.
    unfold bind at 1. rewrite Htoc.
    unfold bind at 1. unfold lift at 1. rewrite Hcol, Hvalues. cbn [Py.truthy_list].
    unfold unique. cbn [unique_from].
    rewrite bool_decide_eq_false_2 by apply not_elem_of_nil.
    unfold bind at 1. unfold lift at 1, getitem at 1. cbn [lookup list_lookup].
    unfold bind at 1. unfold lift at 1. rewrite Hdate, Hdir.
    fold cache_file.
    unfold bind, os_path_isdir, os_path_isfile, read_file, lift, print, ret.
    rewrite (bool_decide_eq_true_2 _ Hisdir). cbn [negb].
    rewrite (bool_decide_eq_true_2 (is_Some (files w1 !! cache_file)))
      by (exists content; exact Hfile).
    cbn [andb orb negb].
    destruct quiet; cbn [negb orb andb]; cbv beta; cbn [files]; rewrite Hfile;
      destruct (parse_dataset E cache_file content) as [e|dat]; cbn [and_then];
      eexists; repeat split. }
  destruct Hr as (w2 & -> & Hreq & Hfiles). repeat split; assumption.
Qed.

(** The entry is not there: the dataset is fetched again. *)
Lemma get_ilostat_dat_refetch :
  files w1 !! cache_file_name cache_dir segment id date cache_format = None ->
  get_ilostat_dat E id segment filters true true cache_dir cache_format quiet w
  = bind (get_ilostat_raw E id segment
                          (cache_file_name cache_dir segment id date cache_format)
                          cache_dir cache_format quiet)
         (fun dat => lift (apply_filters E filters dat)) w1.
Proof.
  set (cache_file := cache_file_name cache_dir segment id date cache_format).
  intros Hfile. unfold get_ilostat_dat.
  unfold bind at 1. rewrite Htoc.
  unfold bind at 1. unfold lift at 1. rewrite Hcol, Hvalues. cbn [Py.truthy_list].
  unfold unique. cbn [unique_from].
  rewrite bool_decide_eq_false_2 by apply not_elem_of_nil.
  unfold bind at 1. unfold lift at 1, getitem at 1. cbn [lookup list_lookup].
  unfold bind at 1. unfold lift at 1. rewrite Hdate, Hdir.
  fold cache_file.
  unfold bind at 1. unfold os_path_isdir at 1.
  rewrite (bool_decide_eq_true_2 _ Hisdir). cbn [negb].
  unfold bind at 1. unfold ret at 1.
  unfold bind at 1. unfold os_path_isfile at 1. rewrite Hfile.
  rewrite (bool_decide_eq_false_2 (is_Some None)) by (intros [? ?]; discriminate).
  cbn [andb orb negb].
  unfold bind at 1. unfold ret at 1. reflexivity.
Qed.

End CacheDecision.

(** C6. Date reformatting: the date put in the name of the cache file is
    made of the characters 6-9, 3-4 and 0-1 of [last.update]; for a text of
    the layout DD.MM.YYYY this is YYYYMMDD, and ["01.01.2020"] becomes
    ["20200101"].  The name of the cache file holds that date, whatever
    the date, between the id and the format; and this is the file
    [get_ilostat_dat] works on: for a table of contents whose first
    [last.update] is DD.MM.YYYY, the entry
    [cache_dir/segment-id-YYYYMMDD.format] is the one that is read when it
    is there, and the one that is fetched when it is not. *)
Theorem date_reformat :
  (forall s,
      reformat_date (CStr s)
      = inr (String.substring 6 4 s +:+ String.substring 3 2 s +:+ String.substring 0 2 s))
  /\ (forall (d1 d2 p m1 m2 q y1 y2 y3 y4 : ascii),
         reformat_date
           (CStr (String d1 (String d2 (String p (String m1 (String m2 (String q
                   (String y1 (String y2 (String y3 (String y4 EmptyString)))))))))))
         = inr (String y1 (String y2 (String y3 (String y4
                  (String m1 (String m2 (String d1 (String d2 EmptyString)))))))))
  /\ reformat_date (CStr "01.01.2020") = inr "20200101"
  /\ (forall cache_dir segment id date cache_format,
         cache_file_name cache_dir segment id date cache_format
         = cache_dir +:+ "/" +:+ segment +:+ "-" +:+ id +:+ "-" +:+ date +:+ "." +:+ cache_format)
  /\ (forall (E : environment) (id segment : string) (filters : list filter_entry)
             (cache_dir cache_format : string) (quiet : bool) (w w1 : world)
             (toc : DataFrame) (col : Series) (rest : list cell)
             (d1 d2 p m1 m2 q y1 y2 y3 y4 : ascii),
         let last_update :=
           String d1 (String d2 (String p (String m1 (String m2 (String q
             (String y1 (String y2 (String y3 (String y4 EmptyString))))))))) in
         let date :=
           String y1 (String y2 (String y3 (String y4
             (String m1 (String m2 (String d1 (String d2 EmptyString))))))) in
         let cache_file :=
           cache_dir +:+ "/" +:+ segment +:+ "-" +:+ id +:+ "-" +:+ date +:+ "."
           +:+ cache_format in
         get_ilostat_toc E segment "en" (SearchList []) [FStr id] w = (w1, inr toc) ->
         getitem_col toc "last.update" = inr col ->
         svalues col = CStr last_update :: rest ->
         Py.truthy_str cache_dir = true ->
         cache_dir ∈ dirs w1 ->
         (forall content,
             files w1 !! cache_file = Some content ->
             snd (get_ilostat_dat E id segment filters true true cache_dir cache_format
                                  quiet w)
             = and_then (parse_dataset E cache_file content) (apply_filters E filters))
         /\ (files w1 !! cache_file = None ->
             get_ilostat_dat E id segment filters true true cache_dir cache_format quiet w
             = bind (get_ilostat_raw E id segment cache_file cache_dir cache_format quiet)
                    (fun dat => lift (apply_filters E filters dat)) w1)).
Proof.
  split; [|split; [|split; [|split]]]; try (intros; reflexivity).
  intros E id segment filters cache_dir cache_format quiet w w1 toc col rest
         d1 d2 p m1 m2 q y1 y2 y3 y4 last_update date cache_file Htoc Hcol Hvalues Hdir Hisdir.
  split.
  - intros content Hfile.
    exact (proj1 (get_ilostat_dat_fresh E id segment filters cache_dir cache_format quiet
                    w w1 toc col (CStr last_update) rest date Htoc Hcol Hvalues eq_refl
                    Hdir Hisdir content Hfile)).
  - intros Hfile.
    exact (get_ilostat_dat_refetch E id segment filters cache_dir cache_format quiet
             w w1 toc col (CStr last_update) rest date Htoc Hcol Hvalues eq_refl
             Hdir Hisdir Hfile).
Qed.

Lemma date_reformat_witness :
  let cache_file := "/cache" +:+ "/" +:+ "indicator" +:+ "-" +:+ "AB" +:+ "-" +:+ "20200102"
                    +:+ "." +:+ "csv.gz" in
  let w1 := log_request (toc_url "indicator" "en") Sample.disk_AB in
  (forall content,
      files w1 !! cache_file = Some content ->
      snd (get_ilostat_dat Sample.env "AB" "indicator" [] true true "/cache" "csv.gz" true
                           Sample.disk_AB)
      = and_then (parse_dataset Sample.env cache_file content) (apply_filters Sample.env []))
  /\ (files w1 !! cache_file = None ->
      get_ilostat_dat Sample.env "AB" "indicator" [] true true "/cache" "csv.gz" true
                      Sample.disk_AB
      = bind (get_ilostat_raw Sample.env "AB" "indicator" cache_file "/cache" "csv.gz" true)
             (fun dat => lift (apply_filters Sample.env [] dat)) w1).
Proof.
  apply (proj2 (proj2 (proj2 (proj2 date_reformat)))
           Sample.env "AB" "indicator" [] "/cache" "csv.gz" true Sample.disk_AB
           (log_request (toc_url "indicator" "en") Sample.disk_AB)
           Sample.toc
           (mkSeries (Some "last.update") DObject [CStr "02.01.2020"; CStr "01.01.2020"])
           [CStr "01.01.2020"]
           "0"%char "2"%char "."%char "0"%char "1"%char "."%char
           "2"%char "0"%char "2"%char "0"%char);
    reflexivity.
Defined.

(** When the dataset asked for is the first one the filter [[id]] lets
    through, its entry is found and read: only the table of contents is
    requested. *)
Example get_ilostat_dat_reads_cache :
  let r := get_ilostat_dat Sample.env "AB" "indicator" [] true true "/cache" "csv.gz" false
                           Sample.disk_AB in
  requested (fst r) = [toc_url "indicator" "en"]
  /\ stdout (fst r) = ["Table AB is up to date"; "Table AB read from cache file: /cache"]
  /\ snd r = inr Sample.cached.
Proof. vm_compute. repeat split. Qed.

(** C1.  The date [get_ilostat_dat] compares with the cache is not always
    the one of the dataset.  The table of contents lists [AB] (updated
    02.01.2020) and then [A] (updated 01.01.2020); the entry of [A] for
    01.01.2020 is in the cache.  Asked for [A] with [cache] and
    [cache_update] set, the function keeps both rows (["A"] is found in
    ["AB"]), takes the date of the first, finds no file of that name, and
    fetches the dataset again instead of reading the entry. *)
Theorem get_ilostat_dat_wrong_date :
  let r := get_ilostat_dat Sample.env "A" "indicator" [] true true "/cache" "csv.gz" true
                           Sample.disk in
  rows Sample.toc !! 1 = Some [CStr "A"; CStr "A"; CStr "01.01.2020"]
  /\ files Sample.disk !! cache_file_name "/cache" "indicator" "A" "20200101" "csv.gz"
     = Some "cached"
  /\ requested (fst r) = [toc_url "indicator" "en"; Sample.raw_url]
  /\ files (fst r) !! cache_file_name "/cache" "indicator" "A" "20200102" "csv.gz"
     = Some "fresh"
  /\ snd r = inr Sample.fresh.
Proof. vm_compute. repeat split. Qed.

(** ** The labeler *)

Lemma unique_from_spec (l : list cell) :
  forall seen,
    NoDup (unique_from seen l)
    /\ forall x, x ∈ unique_from seen l <-> x ∈ l /\ x ∉ seen.
Proof.
  induction l as [|a l IH]; intros seen; cbn [unique_from].
  - split; [constructor|]. intros x. rewrite elem_of_nil. tauto.
  - destruct (bool_decide (a ∈ seen)) eqn:Ha.
    + apply bool_decide_eq_true_1 in Ha.
      destruct (IH seen) as [Hnodup Hin]. split; [exact Hnodup|].
      intros x. rewrite Hin, elem_of_cons. split; [tauto|].
      intros [[->|Hx] Hseen]; [contradiction | tauto].
    + apply bool_decide_eq_false_1 in Ha.
      destruct (IH (a :: seen)) as [Hnodup Hin]. split.
      * constructor; [|exact Hnodup]. rewrite Hin, elem_of_cons. tauto.
      * intros x. rewrite !elem_of_cons, Hin, elem_of_cons. split.
        -- intros [->|[Hx Hseen]]; tauto.
        -- intros [[->|Hx] Hseen]; [tauto|].
           destruct (decide (x = a)) as [->|Hne]; tauto.
Qed.

Lemma unique_spec (l : list cell) :
  NoDup (unique l) /\ forall x, x ∈ unique l <-> x ∈ l.
Proof.
  destruct (unique_from_spec l []) as [Hnodup Hin]. split; [exact Hnodup|].
  intros x. unfold unique. rewrite Hin, elem_of_nil. tauto.
Qed.

Lemma filter_code_absent (rs : list (list cell)) (v : cell) :
  v ∉ map (fun r => cell_at r 0) rs ->
  List.filter (fun r => bool_decide (cell_at r 0 = v)) rs = [].
Proof.
  induction rs as [|r rs IH]; intros Hv; [reflexivity|].
  cbn [map] in Hv. rewrite not_elem_of_cons in Hv. destruct Hv as [Hne Hv].
  cbn [List.filter]. rewrite bool_decide_eq_false_2 by congruence.
  exact (IH Hv).
Qed.

(** Rows with distinct codes: at most one row has a given code. *)
Lemma filter_code_unique (rs : list (list cell)) (v : cell) :
  NoDup (map (fun r => cell_at r 0) rs) ->
  List.filter (fun r => bool_decide (cell_at r 0 = v)) rs = []
  \/ exists r, List.filter (fun r => bool_decide (cell_at r 0 = v)) rs = [r].
Proof.
  induction rs as [|r rs IH]; intros Hnodup; [left; reflexivity|].
  cbn [map] in Hnodup. apply NoDup_cons in Hnodup as [Hr Hrs].
  cbn [List.filter]. destruct (bool_decide (cell_at r 0 = v)) eqn:Hv.
  - right. exists r. f_equal.
    apply bool_decide_eq_true_1 in Hv. subst v.
    apply filter_code_absent. exact Hr.
  - exact (IH Hrs).
Qed.

Lemma cell_at_delete_0 (r : list cell) : cell_at (delete 0 r) 0 = cell_at r 1.
Proof. destruct r; reflexivity. Qed.

(** The labels a left join against a dictionary laid out as (code, label,
    ...) with distinct codes puts next to the values of [left]. *)
Lemma merge_labels (name : string) (left : list cell) (right : DataFrame)
      (label_col : string * dtype) (others : list (string * dtype)) :
  columns right = (name, DObject) :: label_col :: others ->
  NoDup (dictionary_codes right) ->
  exists y y2 col,
    merge_left name DObject left right = inr y
    /\ iloc_cols y [0; 1] = inr y2
    /\ iloc_col y2 1 = inr col
    /\ svalues col = map (dictionary_label right) left.
Proof.
  intros Hcols Hnodup. destruct label_col as [label ty].
  unfold merge_left. rewrite Hcols.
  cbn [column_index]. rewrite String.eqb_refl.
  cbn [lookup list_lookup fmap option_fmap option_map default snd].
  rewrite (bool_decide_eq_true_2 (DObject = DObject)) by reflexivity.
  rewrite andb_false_r.
  eexists. eexists. eexists.
  split; [reflexivity|]. split; [reflexivity|].
  unfold iloc_col. cbn [columns rows lookup list_lookup delete list_delete].
  split; [reflexivity|].
  cbn [svalues]. rewrite List.map_map.
  rewrite (List.map_ext _ (fun row => cell_at row 1)) by reflexivity.
  induction left as [|v left IH]; [reflexivity|].
  cbn [flat_map]. rewrite List.map_app, IH. clear IH.
  change (map (dictionary_label right) (v :: left))
    with ([dictionary_label right v] ++ map (dictionary_label right) left).
  f_equal. unfold dictionary_label.
  destruct (filter_code_unique (rows right) v Hnodup) as [->|[r ->]].
  - reflexivity.
  - cbn [map]. f_equal. apply cell_at_delete_0.
Qed.

(** A dictionary that is served and parsed. *)
Lemma get_ilostat_dic_served (E : environment) (dic lang : string) (w : world)
      (status : nat) (body : string) (dic_df : DataFrame) :
  server E (dic_url dic lang) = Response status body ->
  http_ok status = true ->
  parse_dic E body = inr dic_df ->
  get_ilostat_dic E dic lang w = (log_request (dic_url dic lang) w, inr dic_df).
Proof.
  intros Hserver Hok Hparse.
  unfold get_ilostat_dic, is_DataFrame, bind, urlopen, lift, ret.
  rewrite Hserver, Hok, Hparse. reflexivity.
Qed.




Lemma join_labels_text (sep : string) (l : list cell) :
  forallb is_text l = true -> join_labels sep l = inr (Py.join sep (map cell_text l)).
Proof.
  intros Hl. unfold join_labels.
  assert (Ht : traverse (fun c => match c with CStr s => inr s | _ => inl TypeError end) l
               = inr (map cell_text l)).
  { induction l as [|c l IH]; [reflexivity|].
    cbn [forallb] in Hl. apply andb_prop in Hl as [Hc Hl].
    cbn [traverse map]. destruct c; try discriminate.
    rewrite (IH Hl). reflexivity. }
  rewrite Ht. reflexivity.
Qed.

Lemma forallb_map_compose {A B} (p : B -> bool) (f : A -> B) (l : list A) :
  forallb p (map f l) = forallb (fun a => p (f a)) l.
Proof.
  induction l as [|a l IH]; [reflexivity|]. cbn. rewrite IH. reflexivity.
Qed.

(** One composite value whose elementary codes all have a label. *)
Lemma composite_label_run (dic : string) (dic_df : DataFrame)
      (label_col : string * dtype) (others : list (string * dtype)) (v : string) (w : world) :
  columns dic_df = (dic, DObject) :: label_col :: others ->
  NoDup (dictionary_codes dic_df) ->
  resolvable dic_df v = true ->
  composite_label dic dic_df (CStr v) w
  = (fst (print (str_of_nat (length (Py.split "_" v))) w), inr (composite_text dic_df v)).
Proof.
  intros Hcols Hnodup Hres. unfold composite_label, bind, lift, print.
  destruct (merge_labels dic (map CStr (Py.split "_" v)) dic_df label_col others Hcols Hnodup)
    as (y & y2 & col & -> & -> & -> & Hvalues).
  rewrite Hvalues, join_labels_text.
  - unfold composite_text. rewrite !List.map_map. reflexivity.
  - unfold resolvable in Hres. rewrite !forallb_map_compose. exact Hres.
Qed.






(** The example of the specification, run. *)
Example label_A_B :
  composite_text Sample.dictionary "A_B" = "Alpha | Beta"
  /\ snd (label_ilostat Sample.env
            (XSeries (mkSeries (Some "note_source") DObject
                               [CStr "A_B"; CNaN; CStr "B"; CStr "A_B"]))
            "note_source" [] "en" Sample.blank)
     = inr (YList [CStr "Alpha | Beta"; CNaN; CStr "Beta"; CStr "Alpha | Beta"]).
Proof. split; vm_compute; reflexivity. Qed.

Example label_sex :
  snd (label_ilostat Sample.env (XList [CStr "SEX_F"; CStr "SEX_X"; CNaN; CStr "SEX_T"])
                     "sex" [] "en" Sample.blank)
  = inr (YList [CStr "Sex: Female"; CNaN; CNaN; CStr "Sex: Total"]).
Proof. vm_compute. reflexivity. Qed.

(** A composite with an elementary code the dictionary does not know: the
    [join] meets NaN and raises. *)
Example label_unknown_note :
  snd (label_ilostat Sample.env
         (XSeries (mkSeries (Some "note_source") DObject [CStr "A_B"; CStr "A_Z"]))
         "note_source" [] "en" Sample.blank)
  = inl TypeError.
Proof. vm_compute. reflexivity. Qed.

(** The same with two unrelated ids: the filter [[id]] joins the characters
    of the id with [|], so a row is kept as soon as its id shares one
    character with the id asked for, and the date of the first row of the
    table of contents is the one that is used. *)
Example toc_lookup_by_characters :
  join_entry "|" (FStr "UNE_TUNE_SEX_AGE_NB_A") = "U|N|E|_|T|U|N|E|_|S|E|X|_|A|G|E|_|N|B|_|A"
  /\ apply_filters Sample.env [FStr "UNE_TUNE_SEX_AGE_NB_A"] Sample.catalog
     = inr Sample.catalog
  /\ and_then (getitem_col Sample.catalog "last.update")
              (fun col => and_then (getitem (unique (svalues col)) 0) reformat_date)
     = inr "20200102".
Proof. vm_compute. repeat split. Qed.

(** * Further properties of the code *)

(** ** The cache manager *)

Lemma bind_ext {S A B} (m : prog S A) (k1 k2 : A -> prog S B) (s : S) :
  (forall a s', k1 a s' = k2 a s') -> bind m k1 s = bind m k2 s.
Proof.
  intros H. unfold bind. destruct (m s) as [s' [e|a]]; [reflexivity | apply H].
Qed.

(** X1. With [quiet] set, [cache_update] changes nothing: the same files
    are read, requested and written, and the same table or exception comes
    back.  (An entry that exists is read whether or not an update is asked
    for; [cache_update] only decides the message "is up to date".) *)
Theorem cache_update_only_prints (E : environment) (id segment : string)
        (filters : list filter_entry) (cache : bool) (cache_dir cache_format : string)
        (w : world) :
  get_ilostat_dat E id segment filters cache true cache_dir cache_format true w
  = get_ilostat_dat E id segment filters cache false cache_dir cache_format true w.
Proof.
  unfold get_ilostat_dat.
  apply bind_ext. intros toc w1.
  apply bind_ext. intros last_toc_update w2.
  destruct (Py.truthy_list (svalues last_toc_update)); [|reflexivity].
  apply bind_ext. intros first w3.
  apply bind_ext. intros date w4.
  apply bind_ext. intros isdir w5.
  apply bind_ext. intros [] w6.
  apply bind_ext. intros isfile w7.
  destruct cache, isfile; reflexivity.
Qed.

(** Without a cache directory, the directory [ilostat] under the
    temporary directory is used: the call is the one with that path. *)
Lemma default_cache_dir (E : environment) (id segment : string)
        (filters : list filter_entry) (cache cache_update : bool) (cache_format : string)
        (quiet : bool) (w : world) :
  get_ilostat_dat E id segment filters cache cache_update "" cache_format quiet w
  = get_ilostat_dat E id segment filters cache cache_update (tempdir E +:+ "/ilostat")
                    cache_format quiet w.
Proof.
  unfold get_ilostat_dat.
  assert (Htruthy : Py.truthy_str (tempdir E +:+ "/ilostat") = true)
    by (destruct (tempdir E); reflexivity).
  rewrite Htruthy. reflexivity.
Qed.

(** ** Segments and dictionaries *)

Lemma lower_ascii_idempotent (c : ascii) :
  Py.lower_ascii (Py.lower_ascii c) = Py.lower_ascii c.
Proof. destruct c as [[] [] [] [] [] [] [] []]; reflexivity. Qed.

Lemma lower_idempotent (s : string) : Py.lower (Py.lower s) = Py.lower s.
Proof.
  induction s as [|c s IH]; [reflexivity|].
  cbn [Py.lower]. rewrite lower_ascii_idempotent, IH. reflexivity.
Qed.

(** X2. Any segment whose lower-case form contains ["model"] is read as
    the segment of the modelled estimates: the table of contents is the
    English one whatever the language asked for, and [get_ilostat] does
    what it does for ["modelled_estimates"], for every kind of [id]. *)
Theorem modelled_estimates_segment (E : environment) (segment : string) :
  Py.find (Py.lower segment) "model" <> (-1)%Z ->
  (forall lang search filters w,
      get_ilostat_toc E segment lang search filters w
      = get_ilostat_toc E "modelled_estimates" "en" search filters w)
  /\ (forall id filters cache cache_update cache_dir cache_format quiet w,
        get_ilostat E id segment filters cache cache_update cache_dir cache_format quiet w
        = get_ilostat E id "modelled_estimates" filters cache cache_update cache_dir
                      cache_format quiet w).
Proof.
  intros Hfind.
  assert (Hnorm : forall lang, normalize_segment segment lang = ("modelled_estimates", "en")).
  { intros lang. unfold normalize_segment.
    destruct (Z.eqb_spec (Py.find (Py.lower segment) "model") (-1)) as [Heq|_];
      [contradiction | reflexivity]. }
  split.
  - intros lang search filters w. unfold get_ilostat_toc. rewrite Hnorm. reflexivity.
  - intros id filters cache cache_update cache_dir cache_format quiet w.
    unfold get_ilostat. rewrite Hnorm. reflexivity.
Qed.

Lemma modelled_estimates_segment_witness :
  (forall lang search filters w,
      get_ilostat_toc Sample.env "ILO_Modelled" lang search filters w
      = get_ilostat_toc Sample.env "modelled_estimates" "en" search filters w)
  /\ (forall id filters cache cache_update cache_dir cache_format quiet w,
        get_ilostat Sample.env id "ILO_Modelled" filters cache cache_update cache_dir
                    cache_format quiet w
        = get_ilostat Sample.env id "modelled_estimates" filters cache cache_update cache_dir
                      cache_format quiet w).
Proof.
  apply (modelled_estimates_segment Sample.env "ILO_Modelled"). discriminate.
Defined.

(** X3. [get_ilostat_dic] does not look at the case of its arguments: the
    dictionary and the language are lower-cased before the file is asked
    for. *)
Theorem get_ilostat_dic_case (E : environment) (dic lang : string) (w : world) :
  get_ilostat_dic E (Py.lower dic) (Py.lower lang) w = get_ilostat_dic E dic lang w.
Proof.
  unfold get_ilostat_dic, dic_url. rewrite !lower_idempotent. reflexivity.
Qed.

(** ** The labeler, table mode *)

(** The table mode, case by case: without a dictionary name the message
    is printed and an empty frame returned; with one, [IndexError] is
    raised when [code] is empty (the test [code[0] == 'all'] is made on the
    empty list), and otherwise the list of the column names is printed and
    an empty frame returned. *)
Lemma label_ilostat_frame (E : environment) (df : DataFrame) (dic : string)
        (code : list string) (lang : string) (w : world) :
  label_ilostat E (XFrame df) dic code lang w
  = if Py.truthy_str dic then
      match code with
      | [] => (w, inl IndexError)
      | _ :: _ => (fst (print (repr_list ilostat_cols_ref) w), inr (YFrame empty_frame))
      end
    else (fst (print "Dictionary information is missing" w), inr (YFrame empty_frame)).
Proof.
  unfold label_ilostat. destruct (Py.truthy_str dic); [|reflexivity].
  destruct code; reflexivity.
Qed.

(** ** The raw fetch *)

Lemma prefix_app (p s : string) :
  String.prefix p s = true -> exists rest, s = p +:+ rest.
Proof.
  revert s. induction p as [|a p IH]; intros s Hp.
  - exists s. reflexivity.
  - destruct s as [|b s]; [discriminate|]. cbn in Hp.
    destruct (ascii_dec a b) as [<-|]; [|discriminate].
    destruct (IH s Hp) as [rest ->]. exists rest. reflexivity.
Qed.

Lemma append_cons (a : ascii) (p s : string) : String a p +:+ s = String a (p +:+ s).
Proof. reflexivity. Qed.

Lemma length_append (p s : string) :
  String.length (p +:+ s) = String.length p + String.length s.
Proof.
  induction p as [|a p IH]; [reflexivity|].
  rewrite append_cons. cbn [String.length]. rewrite IH. reflexivity.
Qed.

(** Skipping the characters of an occurrence that was replaced. *)
Lemma replace_from_skip (old new pre s : string) :
  Py.replace_from old new (String.length pre) (pre +:+ s) = Py.replace_from old new 0 s.
Proof.
  induction pre as [|a pre IH]; [reflexivity|].
  rewrite append_cons. cbn [String.length Py.replace_from]. exact IH.
Qed.

Lemma replace_from_same (old : string) (n : nat) :
  old <> EmptyString ->
  forall s, String.length s <= n -> Py.replace_from old old 0 s = s.
Proof.
  intros Hold. induction n as [|n IH]; intros s Hlen.
  - destruct s; [reflexivity | cbn in Hlen; lia].
  - destruct s as [|a s]; [reflexivity|].
    cbn [Py.replace_from]. destruct (String.prefix old (String a s)) eqn:Hp.
    + destruct (prefix_app _ _ Hp) as [rest Hrest].
      destruct old as [|c old]; [contradiction|].
      rewrite append_cons in Hrest. injection Hrest as -> ->.
      replace (String.length (String c old) - 1) with (String.length old)
        by (cbn [String.length]; lia).
      rewrite replace_from_skip, IH; [reflexivity|].
      cbn in Hlen. rewrite length_append in Hlen. lia.
    + rewrite IH; [reflexivity | cbn in Hlen; lia].
Qed.

(** Replacing a text by itself changes nothing. *)
Lemma replace_same (s old : string) : old <> EmptyString -> Py.replace s old old = s.
Proof.
  intros Hold. unfold Py.replace. destruct old as [|c old]; [contradiction|].
  apply (replace_from_same _ (String.length s)); [discriminate | lia].
Qed.

(** X4. A dataset that is served and parsed, with the cache format
    [csv.gz] and a cache entry that can be written (its directory
    exists): the downloaded file is left under the name of the cache
    entry, the address is printed unless quiet, and the table is
    returned. *)
Theorem raw_fetch_keeps_entry (E : environment) (id segment cache_file cache_dir : string)
        (quiet : bool) (w : world) (status : nat) (body : string) (dat : DataFrame) :
  let url := base_url +:+ segment +:+ "/" +:+ id +:+ ".csv.gz" in
  String.eqb segment "modelled_estimates" = false ->
  server E url = Response status body ->
  writable w cache_file = true ->
  parse_dataset E cache_file body = inr dat ->
  get_ilostat_raw E id segment cache_file cache_dir "csv.gz" quiet w
  = (mkWorld (<[cache_file := body]> (files w)) (dirs w)
             (stdout w ++ (if quiet then [] else [url]))
             (requested w ++ [url]),
     inr dat).
Proof.
  intros url Hseg Hserver Hwrite Hparse.
  unfold get_ilostat_raw. rewrite Hseg.
  change ("." +:+ "csv.gz") with ".csv.gz".
  rewrite (replace_same cache_file ".csv.gz") by discriminate.
  fold url.
  unfold bind, try_except_OSError, requests_get, write_file, read_file, lift, print, ret.
  rewrite Hserver.
  change (writable (log_request url w) cache_file) with (writable w cache_file).
  rewrite Hwrite. cbn [files]. rewrite lookup_insert_eq, Hparse.
  destruct quiet; cbn; [rewrite app_nil_r|]; reflexivity.
Qed.

Lemma raw_fetch_keeps_entry_witness :
  get_ilostat_raw Sample.env "A" "indicator" "/cache/indicator-A-20200102.csv.gz" "/cache"
                  "csv.gz" true Sample.disk
  = (mkWorld (<["/cache/indicator-A-20200102.csv.gz" := "fresh"]> (files Sample.disk))
             (dirs Sample.disk)
             (stdout Sample.disk ++ [])
             (requested Sample.disk ++ [base_url +:+ "indicator" +:+ "/" +:+ "A" +:+ ".csv.gz"]),
     inr Sample.fresh).
Proof.
  apply (raw_fetch_keeps_entry Sample.env "A" "indicator" "/cache/indicator-A-20200102.csv.gz"
           "/cache" true Sample.disk 200 "fresh" Sample.fresh); reflexivity.
Defined.

(** X5. With another cache format, and a temporary file that can be
    written (its directory exists), the downloaded file is removed once it
    has been parsed and nothing is written in its place: the disk holds no
    file it did not hold before, so the entry [cache_file] that
    [get_ilostat_dat] will look for is still missing after the call. *)
Theorem raw_fetch_leaves_no_entry (E : environment)
        (id segment cache_file cache_dir cache_format : string)
        (quiet : bool) (w : world) (status : nat) (body : string) (dat : DataFrame) :
  let url := base_url +:+ segment +:+ "/" +:+ id +:+ ".csv.gz" in
  let tfile := Py.replace cache_file ("." +:+ cache_format) ".csv.gz" in
  String.eqb segment "modelled_estimates" = false ->
  String.eqb cache_format "csv.gz" = false ->
  server E url = Response status body ->
  writable w tfile = true ->
  parse_dataset E tfile body = inr dat ->
  let r := get_ilostat_raw E id segment cache_file cache_dir cache_format quiet w in
  snd r = inr dat
  /\ files (fst r) = delete tfile (files w)
  /\ (files w !! cache_file = None -> files (fst r) !! cache_file = None).
Proof.
  intros url tfile Hseg Hformat Hserver Hwrite Hparse r.
  assert (Hr : snd r = inr dat /\ files (fst r) = delete tfile (files w)).
  { subst r. unfold get_ilostat_raw. rewrite Hseg. fold url tfile.
    unfold bind, try_except_OSError, requests_get, write_file, read_file, lift, os_remove,
      print, ret.
    rewrite Hserver.
    change (writable (log_request url w) tfile) with (writable w tfile). rewrite Hwrite.
    cbn [files]. rewrite lookup_insert_eq, Hparse, Hformat.
    cbn [negb files]. rewrite lookup_insert_eq.
    destruct quiet; cbn; (split; [reflexivity | apply delete_insert_eq]). }
  destruct Hr as [Hres Hfiles]. repeat split; [exact Hres | exact Hfiles |].
  intros Habsent. rewrite Hfiles.
  destruct (decide (tfile = cache_file)) as [->|Hne];
    [apply lookup_delete_eq | rewrite lookup_delete_ne; assumption].
Qed.

Lemma raw_fetch_leaves_no_entry_witness :
  let r := get_ilostat_raw Sample.env "A" "indicator" "/cache/indicator-A-20200102.csv"
                           "/cache" "csv" true Sample.disk in
  snd r = inr Sample.fresh
  /\ files (fst r)
     = delete (Py.replace "/cache/indicator-A-20200102.csv" ("." +:+ "csv") ".csv.gz")
              (files Sample.disk)
  /\ (files Sample.disk !! "/cache/indicator-A-20200102.csv" = None ->
      files (fst r) !! "/cache/indicator-A-20200102.csv" = None).
Proof.
  apply (raw_fetch_leaves_no_entry Sample.env "A" "indicator"
           "/cache/indicator-A-20200102.csv" "/cache" "csv" true Sample.disk
           200 "fresh" Sample.fresh); reflexivity.
Defined.

(** X6. Whatever happens, [get_ilostat_raw] writes and removes no file but
    its temporary file, and creates no directory. *)
Theorem raw_fetch_other_files (E : environment)
        (id segment cache_file cache_dir cache_format : string)
        (quiet : bool) (w : world) (path : string) :
  path <> Py.replace cache_file ("." +:+ cache_format) ".csv.gz" ->
  let r := get_ilostat_raw E id segment cache_file cache_dir cache_format quiet w in
  files (fst r) !! path = files w !! path /\ dirs (fst r) = dirs w.
Proof.
  intros Hpath r. subst r. unfold get_ilostat_raw.
  set (tfile := Py.replace cache_file ("." +:+ cache_format) ".csv.gz") in *.
  destruct (String.eqb segment "modelled_estimates").
  - unfold bind, try_except_OSError, urlopen, lift, read_local, raise, print, ret.
    destruct (server E _) as [|status body]; cbn [is_OSError].
    + destruct quiet; cbn; split; reflexivity.
    + destruct (http_ok status); cbn [is_OSError].
      * destruct (parse_stata E body) as [[]|dat]; destruct quiet; cbn; split; reflexivity.
      * destruct quiet; cbn; split; reflexivity.
  - unfold bind, try_except_OSError, requests_get, write_file, read_file, lift, os_remove,
      print, ret.
    destruct (server E _) as [|status body]; [split; reflexivity|].
    destruct (writable _ tfile); [|split; reflexivity].
    cbn [files]. rewrite lookup_insert_eq.
    destruct (parse_dataset E tfile body) as [e|dat].
    + destruct e; cbn [is_OSError]; destruct quiet; cbn [negb files fst dirs];
        rewrite ?lookup_insert_eq; cbn [fst files dirs];
        rewrite ?lookup_delete_ne, ?lookup_insert_ne by congruence; split; reflexivity.
    + destruct (String.eqb cache_format "csv.gz"); cbn [negb files];
        rewrite ?lookup_insert_eq; destruct quiet; cbn [negb fst files dirs];
        rewrite ?lookup_delete_ne, ?lookup_insert_ne by congruence; split; reflexivity.
Qed.

Lemma raw_fetch_other_files_witness :
  let r := get_ilostat_raw Sample.env "A" "indicator" "/cache/indicator-A-20200102.csv.gz"
                           "/cache" "csv.gz" true Sample.disk in
  files (fst r) !! "/cache/indicator-A-20200101.csv.gz"
  = files Sample.disk !! "/cache/indicator-A-20200101.csv.gz"
  /\ dirs (fst r) = dirs Sample.disk.
Proof.
  apply (raw_fetch_other_files Sample.env "A" "indicator"
           "/cache/indicator-A-20200102.csv.gz" "/cache" "csv.gz" true Sample.disk
           "/cache/indicator-A-20200101.csv.gz").
  vm_compute. discriminate.
Defined.

(** [raw_csv_unreadable] on the answer "Not Found" of the server. *)
Lemma raw_csv_unreadable_witness :
  let r := get_ilostat_raw Sample.env "Z" "indicator" "/cache/indicator-Z-20200101.csv.gz"
                           "/cache" "csv.gz" false Sample.disk in
  snd r = inr empty_frame
  /\ files (fst r) !! Py.replace "/cache/indicator-Z-20200101.csv.gz" ("." +:+ "csv.gz") ".csv.gz"
     = None
  /\ stdout (fst r) = stdout Sample.disk ++ [missing_msg "Z"].
Proof.
  apply (raw_csv_unreadable Sample.env "Z" "indicator" "/cache/indicator-Z-20200101.csv.gz"
           "/cache" "csv.gz" false Sample.disk 404 "Not Found"); reflexivity.
Defined.

(** ** The cache policy *)

Section CachePolicy.

Context (E : environment) (id segment : string) (filters : list filter_entry)
        (cache_dir cache_format : string) (quiet : bool) (w w1 : world)
        (toc : DataFrame) (col : Series) (first : cell) (rest : list cell)
        (date : string).

Hypothesis Htoc :
  get_ilostat_toc E segment "en" (SearchList []) [FStr id] w = (w1, inr toc).
Hypothesis Hcol : getitem_col toc "last.update" = inr col.
Hypothesis Hvalues : svalues col = first :: rest.
Hypothesis Hdate : reformat_date first = inr date.
Hypothesis Hdir : Py.truthy_str cache_dir = true.
Hypothesis Hisdir : cache_dir ∈ dirs w1.

(** The function up to the test of the file. *)
Lemma get_ilostat_dat_decision (cache cache_update : bool) :
  get_ilostat_dat E id segment filters cache cache_update cache_dir cache_format quiet w
  = (let cache_file := cache_file_name cache_dir segment id date cache_format in
     isfile <- os_path_isfile cache_file ;;
     cache_update <-
       (if cache && (cache_update && isfile)
        then (if negb quiet then print ("Table " +:+ id +:+ " is up to date") else ret tt) ;;
             ret false
        else ret cache_update) ;;
     dat <-
       (if negb cache || cache_update || negb isfile
        then get_ilostat_raw E id segment cache_file cache_dir cache_format quiet
        else
          content <- read_file cache_file ;;
          dat <- lift (parse_dataset E cache_file content) ;;
          (if negb quiet
           then print ("Table " +:+ id +:+ " read from cache file: "
                       +:+ os_path_dirname cache_file)
           else ret tt) ;;
          ret dat) ;;
     lift (apply_filters E filters dat))%prog w1.
Proof.
  unfold get_ilostat_dat.
  unfold bind at 1. rewrite Htoc.
  unfold bind at 1. unfold lift at 1. rewrite Hcol, Hvalues. cbn [Py.truthy_list].
  unfold unique. cbn [unique_from].
  rewrite bool_decide_eq_false_2 by apply not_elem_of_nil.
  unfold bind at 1. unfold lift at 1, getitem at 1. cbn [lookup list_lookup].
  unfold bind at 1. unfold lift at 1. rewrite Hdate, Hdir.
  unfold bind at 1. unfold os_path_isdir at 1.
  rewrite (bool_decide_eq_true_2 _ Hisdir). cbn [negb].
  unfold bind at 1. unfold ret at 1. reflexivity.
Qed.

(** X7. The cache policy, for the date [get_ilostat_dat] has taken from
    the table of contents and a cache directory that exists.  Without
    caching, or when the entry of that date is missing, the dataset is
    fetched by [get_ilostat_raw] and the filters are applied to it,
    whatever [cache_update]; with caching and the entry on disk, the entry
    is read and filtered, nothing is requested and no file is touched,
    again whatever [cache_update]. *)
Theorem cache_policy (cache cache_update : bool) :
  let cache_file := cache_file_name cache_dir segment id date cache_format in
  let r := get_ilostat_dat E id segment filters cache cache_update cache_dir cache_format
                           quiet w in
  (cache = false \/ files w1 !! cache_file = None ->
   r = bind (get_ilostat_raw E id segment cache_file cache_dir cache_format quiet)
            (fun dat => lift (apply_filters E filters dat)) w1)
  /\ (forall content,
        cache = true -> files w1 !! cache_file = Some content ->
        snd r = and_then (parse_dataset E cache_file content) (apply_filters E filters)
        /\ requested (fst r) = requested w1
        /\ files (fst r) = files w1
        /\ dirs (fst r) = dirs w1).
Proof.
  intros cache_file r. subst r. rewrite get_ilostat_dat_decision. fold cache_file.
  split.
  - intros Hraw. unfold bind at 1. unfold os_path_isfile at 1.
    destruct (bool_decide (is_Some (files w1 !! cache_file))) eqn:Hfile.
    + destruct Hraw as [->|Hnone];
        [|apply bool_decide_eq_true_1 in Hfile; rewrite Hnone in Hfile;
          destruct Hfile; discriminate].
      cbn [andb negb orb]. unfold bind at 1. unfold ret at 1. reflexivity.
    + destruct cache, cache_update; cbn [andb negb orb];
        unfold bind at 1; unfold ret at 1; reflexivity.
  - intros content -> Hfile.
    unfold bind, os_path_isfile, read_file, lift, print, ret.
    rewrite (bool_decide_eq_true_2 (is_Some (files w1 !! cache_file)))
      by (exists content; exact Hfile).
    cbn [andb orb negb].
    destruct cache_update, quiet; cbn [negb orb andb]; cbv beta; cbn [files];
      rewrite Hfile;
      destruct (parse_dataset E cache_file content) as [e|dat]; cbn [and_then snd fst];
      try (destruct (apply_filters E filters dat)); repeat split.
Qed.

End CachePolicy.

Lemma cache_policy_witness :
  let cache_file := cache_file_name "/cache" "indicator" "AB" "20200102" "csv.gz" in
  let w1 := log_request (toc_url "indicator" "en") Sample.disk_AB in
  let r := get_ilostat_dat Sample.env "AB" "indicator" [] true false "/cache" "csv.gz"
                           true Sample.disk_AB in
  (true = false \/ files w1 !! cache_file = None ->
   r = bind (get_ilostat_raw Sample.env "AB" "indicator" cache_file "/cache" "csv.gz" true)
            (fun dat => lift (apply_filters Sample.env [] dat)) w1)
  /\ (forall content,
        true = true -> files w1 !! cache_file = Some content ->
        snd r = and_then (parse_dataset Sample.env cache_file content)
                         (apply_filters Sample.env [])
        /\ requested (fst r) = requested w1
        /\ files (fst r) = files w1
        /\ dirs (fst r) = dirs w1).
Proof.
  apply (cache_policy Sample.env "AB" "indicator" [] "/cache" "csv.gz" true Sample.disk_AB
           (log_request (toc_url "indicator" "en") Sample.disk_AB)
           Sample.toc
           (mkSeries (Some "last.update") DObject [CStr "02.01.2020"; CStr "01.01.2020"])
           (CStr "02.01.2020") [CStr "01.01.2020"] "20200102");
    reflexivity.
Defined.

(** X8. An id that no row of the table of contents lets through: an empty
    table is returned and the message (which lacks a space before "does")
    is printed unless quiet; the cache directory is not created, the
    dataset is not requested and the filters are not looked at. *)
Theorem get_ilostat_dat_unknown_id (E : environment) (id segment : string)
        (filters : list filter_entry) (cache cache_update : bool)
        (cache_dir cache_format : string) (quiet : bool) (w w1 : world)
        (toc : DataFrame) (col : Series) :
  get_ilostat_toc E segment "en" (SearchList []) [FStr id] w = (w1, inr toc) ->
  getitem_col toc "last.update" = inr col ->
  svalues col = [] ->
  get_ilostat_dat E id segment filters cache cache_update cache_dir cache_format quiet w
  = (if quiet then w1
     else fst (print ("Dataset with id = " +:+ id +:+ "does not exist or is not readable") w1),
     inr empty_frame).
Proof.
  intros Htoc Hcol Hvalues. unfold get_ilostat_dat.
  unfold bind at 1. rewrite Htoc.
  unfold bind at 1. unfold lift at 1. rewrite Hcol, Hvalues. cbn [Py.truthy_list].
  destruct quiet; reflexivity.
Qed.

Lemma get_ilostat_dat_unknown_id_witness :
  get_ilostat_dat Sample.env "Z" "indicator" Sample.value_filters true true "/cache" "csv.gz"
                  false Sample.blank
  = (fst (print ("Dataset with id = " +:+ "Z" +:+ "does not exist or is not readable")
                (log_request (toc_url "indicator" "en") Sample.blank)),
     inr empty_frame).
Proof.
  apply (get_ilostat_dat_unknown_id Sample.env "Z" "indicator" Sample.value_filters
           true true "/cache" "csv.gz" false Sample.blank
           (log_request (toc_url "indicator" "en") Sample.blank)
           (mkDataFrame (columns Sample.toc) [])
           (mkSeries (Some "last.update") DObject []));
    reflexivity.
Defined.

Lemma normalize_segment_again (segment lang : string) :
  normalize_segment (fst (normalize_segment segment lang)) "en"
  = (fst (normalize_segment segment lang), "en").
Proof.
  unfold normalize_segment.
  destruct (Z.eqb_spec (Py.find (Py.lower segment) "model") (-1)) as [Heq|Hne];
    cbn [negb fst]; [|reflexivity].
  rewrite Heq. reflexivity.
Qed.

(** X9. When the table of contents cannot be fetched (the server is not
    reached, or answers with an error status), [get_ilostat] on an id
    given as a string raises [OSError]: only the table of contents has
    been requested, nothing is printed and nothing is written. *)
Theorem get_ilostat_offline (E : environment) (id segment : string)
        (filters : list filter_entry) (cache cache_update : bool)
        (cache_dir cache_format : string) (quiet : bool) (w : world) :
  let url := toc_url (fst (normalize_segment segment "")) "en" in
  match server E url with
  | Unreachable => True
  | Response status _ => http_ok status = false
  end ->
  get_ilostat E (IdStr id) segment filters cache cache_update cache_dir cache_format quiet w
  = (log_request url w, inl OSError).
Proof.
  intros url Hserver.
  unfold get_ilostat. unfold bind at 1. unfold ret at 1.
  unfold bind at 1. unfold bind at 1.
  unfold get_ilostat_dat. unfold bind at 1.
  rewrite (toc_missing_raises E (fst (normalize_segment segment "")) "en" (SearchList [])
             [FStr id] w (fst (normalize_segment segment "")) "en"
             (normalize_segment_again segment "") Hserver).
  reflexivity.
Qed.

Lemma get_ilostat_offline_witness :
  get_ilostat Sample.env (IdStr "A") "nowhere" [] true true "/cache" "csv.gz" false
              Sample.blank
  = (log_request (toc_url "nowhere" "en") Sample.blank, inl OSError).
Proof.
  apply (get_ilostat_offline Sample.env "A" "nowhere" [] true true "/cache" "csv.gz" false
           Sample.blank).
  reflexivity.
Defined.

(** ** The orchestrator on lists of ids *)

(** The loop over the positions [len(pre)], ..., [len(id) - 1] fetches the
    ids that follow [pre], in their order. *)
Lemma append_datasets_range (E : environment) (segment : string)
      (filters : list filter_entry) (cache cache_update : bool)
      (cache_dir cache_format : string) (quiet : bool) (rest : list string) :
  forall (pre : list string) (dat : DataFrame) (w : world),
    append_datasets E (pre ++ rest) (seq (length pre) (length rest)) dat segment filters
                    cache cache_update cache_dir cache_format quiet w
    = fetch_and_append E rest dat segment filters cache cache_update cache_dir cache_format
                       quiet w.
Proof.
  induction rest as [|id rest IH]; intros pre dat w; [reflexivity|].
  cbn [length seq append_datasets fetch_and_append].
  unfold bind at 1. unfold lift at 1, getitem at 1.
  rewrite list_lookup_middle by reflexivity.
  apply bind_ext. intros other w'.
  specialize (IH (pre ++ [id]) (df_append dat other) w').
  rewrite <- app_assoc, length_app in IH. cbn [app length] in IH.
  rewrite Nat.add_1_r in IH. exact IH.
Qed.

(** Assigning the result of [m] then [k] to the result variable and
    returning that variable is running [m] then [k]. *)
Lemma assign_and_return {S A B} (m : prog S A) (k : A -> prog S B) (s : S) :
  (let (s', r) := (d <- m ;; d0 <- k d ;; ret (Some d0))%prog s in
   match r with
   | inl e => (s', inl e)
   | inr a => read_local a s'
   end) = bind m k s.
Proof.
  unfold bind, ret, read_local.
  destruct (m s) as [s' [e|d]]; [reflexivity|].
  destruct (k d s') as [s'' [e|d0]]; reflexivity.
Qed.

(** A list that is not empty: the first dataset, then the others
    appended one by one. *)
Lemma get_ilostat_list_run (E : environment) (segment : string)
      (filters : list filter_entry) (cache cache_update : bool)
      (cache_dir cache_format : string) (quiet : bool) (w : world)
      (id : string) (rest : list string) :
  let seg := fst (normalize_segment segment "") in
  get_ilostat E (IdList (id :: rest)) segment filters cache cache_update cache_dir
              cache_format quiet w
  = bind (get_ilostat_dat E id seg filters cache cache_update cache_dir cache_format quiet)
         (fun dat => fetch_and_append E rest dat seg filters cache cache_update
                                      cache_dir cache_format quiet) w.
Proof.
  intros seg. unfold get_ilostat. fold seg.
  unfold bind at 1. unfold ret at 1. unfold bind at 1. unfold ret at 1.
  unfold bind at 1. unfold bind at 1. unfold lift at 1, getitem at 1.
  cbn [lookup list_lookup].
  rewrite (assign_and_return
             (get_ilostat_dat E id seg filters cache cache_update cache_dir cache_format
                              quiet)
             (fun d => if 1 <? length (id :: rest)
                       then append_datasets E (id :: rest) (range 1 (length (id :: rest)))
                                            d seg filters cache cache_update cache_dir
                                            cache_format quiet
                       else ret d) w).
  apply bind_ext. intros dat w'.
  destruct rest as [|id' rest]; [reflexivity|].
  change (1 <? length (id :: id' :: rest)) with true. cbv iota.
  unfold range. cbn [length]. rewrite Nat.sub_succ, Nat.sub_0_r.
  exact (append_datasets_range E seg filters cache cache_update cache_dir cache_format
                               quiet (id' :: rest) [id] dat w').
Qed.

(** X10. A list of ids: the datasets are fetched from left to right, each
    once, and appended in that order, the first exception ending the call;
    an empty list raises [IndexError] before anything is requested; and a
    list of one id gives what the id alone gives. *)
Theorem get_ilostat_list (E : environment) (segment : string)
        (filters : list filter_entry) (cache cache_update : bool)
        (cache_dir cache_format : string) (quiet : bool) (w : world) :
  let seg := fst (normalize_segment segment "") in
  get_ilostat E (IdList []) segment filters cache cache_update cache_dir cache_format quiet w
  = (w, inl IndexError)
  /\ (forall id rest,
        get_ilostat E (IdList (id :: rest)) segment filters cache cache_update cache_dir
                    cache_format quiet w
        = bind (get_ilostat_dat E id seg filters cache cache_update cache_dir cache_format
                                quiet)
               (fun dat => fetch_and_append E rest dat seg filters cache cache_update
                                            cache_dir cache_format quiet) w)
  /\ (forall id,
        get_ilostat E (IdList [id]) segment filters cache cache_update cache_dir
                    cache_format quiet w
        = get_ilostat E (IdStr id) segment filters cache cache_update cache_dir
                      cache_format quiet w).
Proof.
  intros seg.
  split; [reflexivity|]. split; [intros id rest; apply get_ilostat_list_run|].
  intros id. rewrite get_ilostat_list_run. unfold get_ilostat. fold seg.
  unfold bind, ret, read_local. cbn [fetch_and_append]. unfold ret.
  destruct (get_ilostat_dat E id seg filters cache cache_update cache_dir cache_format
                            quiet w) as [w' [e|dat]]; reflexivity.
Qed.

Lemma column_index_lookup (cols : list (string * dtype)) :
  NoDup cols.*1 ->
  forall i c, cols !! i = Some c -> column_index c.1 cols = Some i.
Proof.
  induction cols as [|[n ty] cols IH]; intros Hnodup i c Hi; [discriminate|].
  cbn [fmap list_fmap fst] in Hnodup. apply NoDup_cons in Hnodup as [Hn Hnodup].
  destruct i as [|i]; cbn [lookup list_lookup] in Hi.
  - injection Hi as <-. cbn [column_index fst]. rewrite String.eqb_refl. reflexivity.
  - cbn [column_index].
    assert (Hne : n <> c.1).
    { intros ->. apply Hn. apply list_elem_of_fmap. exists c. split; [reflexivity|].
      apply list_elem_of_lookup. exists i. exact Hi. }
    apply String.eqb_neq in Hne. rewrite Hne, (IH Hnodup i c Hi). reflexivity.
Qed.

Lemma filter_none {A} (p : A -> bool) (l : list A) :
  (forall a, In a l -> p a = false) -> List.filter p l = [].
Proof.
  induction l as [|a l IH]; intros H; [reflexivity|].
  cbn. rewrite (H a (or_introl eq_refl)). apply IH. intros b Hb. apply H. right. exact Hb.
Qed.

(** A row with one cell per column, aligned on its own header. *)
Lemma align_row_same (cols : list (string * dtype)) (row : list cell) :
  NoDup cols.*1 -> length row = length cols -> align_row cols cols row = row.
Proof.
  intros Hnodup Hlen. unfold align_row. apply list_eq. intros i.
  rewrite list_lookup_fmap. destruct (cols !! i) as [c|] eqn:Hc; cbn.
  - rewrite (column_index_lookup cols Hnodup i c Hc).
    destruct (lookup_lt_is_Some_2 row i) as [x Hx].
    { rewrite Hlen. apply lookup_lt_is_Some. eauto. }
    unfold cell_at. rewrite Hx. reflexivity.
  - symmetry. apply lookup_ge_None. rewrite Hlen. apply lookup_ge_None. exact Hc.
Qed.

(** Appending a dataset to another with the same header (distinct
    column names, one cell per column in every row): the header is kept
    and the rows of the second follow those of the first. *)
Lemma df_append_same_columns (a b : DataFrame) :
  columns b = columns a ->
  NoDup (column_names a) ->
  rectangular a ->
  rectangular b ->
  df_append a b = mkDataFrame (columns a) (rows a ++ rows b).
Proof.
  intros Hcols Hnodup Ha Hb. unfold df_append, column_names in *. rewrite Hcols.
  assert (Hmerged :
            map (fun c => match column_index c.1 (columns a) with
                          | Some i => match columns a !! i with
                                      | Some (_, ty) =>
                                          if bool_decide (ty = c.2) then c else (c.1, DObject)
                                      | None => c
                                      end
                          | None => c
                          end) (columns a) = columns a).
  { transitivity (map (fun c : string * dtype => c) (columns a)); [|apply List.map_id].
    apply List.map_ext_in. intros c Hc.
    apply list_elem_of_In, list_elem_of_lookup in Hc as [i Hi].
    rewrite (column_index_lookup _ Hnodup i c Hi), Hi. destruct c as [n ty]. cbn [snd].
    rewrite bool_decide_eq_true_2; reflexivity. }
  assert (Hextra :
            List.filter (fun c => negb (bool_decide (c.1 ∈ (columns a).*1))) (columns a) = []).
  { apply filter_none. intros c Hc. apply negb_false_iff, bool_decide_eq_true_2.
    apply list_elem_of_fmap. exists c. split; [reflexivity|]. apply list_elem_of_In. exact Hc. }
  rewrite Hmerged, Hextra, app_nil_r. f_equal. f_equal.
  - transitivity (map (fun row : list cell => row) (rows a)); [|apply List.map_id].
    apply List.map_ext_in. intros row Hrow.
    apply align_row_same; [exact Hnodup|].
    unfold rectangular in Ha. rewrite List.Forall_forall in Ha. exact (Ha row Hrow).
  - transitivity (map (fun row : list cell => row) (rows b)); [|apply List.map_id].
    apply List.map_ext_in. intros row Hrow.
    apply align_row_same; [exact Hnodup|].
    unfold rectangular in Hb. rewrite List.Forall_forall in Hb.
    rewrite <- Hcols. exact (Hb row Hrow).
Qed.

Lemma df_append_same_columns_witness :
  df_append Sample.cached Sample.fresh
  = mkDataFrame (columns Sample.cached) (rows Sample.cached ++ rows Sample.fresh).
Proof.
  apply (df_append_same_columns Sample.cached Sample.fresh).
  - reflexivity.
  - apply (bool_decide_unpack (NoDup (column_names Sample.cached))). vm_compute. exact I.
  - unfold rectangular. repeat constructor.
  - unfold rectangular. repeat constructor.
Defined.

(** ** The labeler, vector mode *)

(** X11. For a dictionary of notes (a name with ["note_"], whatever the
    case), the codes must come as a series called like the dictionary: once
    the dictionary has been fetched, a list raises [AttributeError] (it has
    no [drop_duplicates]) and a series with another name, or without a
    name, raises [KeyError]. *)
Theorem label_notes_need_named_series (E : environment) (dic lang : string)
        (code : list string) (w : world) (status : nat) (body : string)
        (dic_df : DataFrame) :
  Py.truthy_str dic = true ->
  Py.find (Py.lower dic) "note_" <> (-1)%Z ->
  server E (dic_url dic lang) = Response status body ->
  http_ok status = true ->
  parse_dic E body = inr dic_df ->
  (forall l,
      label_ilostat E (XList l) dic code lang w
      = (log_request (dic_url dic lang) w, inl AttributeError))
  /\ (forall s,
        sname s <> Some dic ->
        label_ilostat E (XSeries s) dic code lang w
        = (log_request (dic_url dic lang) w, inl KeyError)).
Proof.
  intros Hdic Hfind Hserver Hok Hparse.
  assert (Hnote : (Py.find (Py.lower dic) "note_" =? -1)%Z = false)
    by (apply Z.eqb_neq; exact Hfind).
  split.
  - intros l. unfold label_ilostat. rewrite Hdic. cbn [negb].
    unfold label_vector. unfold bind at 1.
    rewrite (get_ilostat_dic_served E dic lang w status body dic_df Hserver Hok Hparse).
    rewrite Hnote. reflexivity.
  - intros s Hname. unfold label_ilostat. rewrite Hdic. cbn [negb].
    unfold label_vector. unfold bind at 1.
    rewrite (get_ilostat_dic_served E dic lang w status body dic_df Hserver Hok Hparse).
    rewrite Hnote. unfold bind at 1. unfold bind at 1.
    rewrite (bool_decide_eq_false_2 _ Hname). reflexivity.
Qed.

Lemma label_notes_need_named_series_witness :
  (forall l,
      label_ilostat Sample.env (XList l) "Note_Source" [] "en" Sample.blank
      = (log_request (dic_url "Note_Source" "en") Sample.blank, inl AttributeError))
  /\ (forall s,
        sname s <> Some "Note_Source" ->
        label_ilostat Sample.env (XSeries s) "Note_Source" [] "en" Sample.blank
        = (log_request (dic_url "Note_Source" "en") Sample.blank, inl KeyError)).
Proof.
  apply (label_notes_need_named_series Sample.env "Note_Source" "en" [] Sample.blank
           200 "notes" Sample.dictionary); try reflexivity.
  discriminate.
Defined.

(** Splitting what was joined. *)
Lemma split_no_sep (c : ascii) (s : string) :
  occurs c s = false -> Py.split c s = [s].
Proof.
  induction s as [|a s IH]; intros Hs; [reflexivity|].
  cbn [occurs] in Hs. apply orb_false_elim in Hs as [Ha Hs].
  cbn [Py.split]. rewrite Ha, (IH Hs). reflexivity.
Qed.

Lemma split_app_sep (c : ascii) (s rest : string) :
  occurs c s = false ->
  Py.split c (s +:+ String c rest) = s :: Py.split c rest.
Proof.
  induction s as [|a s IH]; intros Hs.
  - change ("" +:+ String c rest) with (String c rest).
    cbn [Py.split]. rewrite Ascii.eqb_refl. reflexivity.
  - cbn [occurs] in Hs. apply orb_false_elim in Hs as [Ha Hs].
    rewrite append_cons. cbn [Py.split]. rewrite Ha, (IH Hs). reflexivity.
Qed.

Lemma split_join (c : ascii) (codes : list string) :
  codes <> [] ->
  forallb (fun code => negb (occurs c code)) codes = true ->
  Py.split c (Py.join (String c EmptyString) codes) = codes.
Proof.
  induction codes as [|code codes IH]; intros Hne Hcodes; [contradiction|].
  cbn [forallb] in Hcodes. apply andb_prop in Hcodes as [Hcode Hcodes].
  apply negb_true_iff in Hcode.
  destruct codes as [|code' codes].
  - cbn. apply split_no_sep. exact Hcode.
  - unfold Py.join in *. cbn [String.concat].
    change (String c "" +:+ ?x) with (String c x).
    rewrite (split_app_sep c code _ Hcode). f_equal.
    apply IH; [discriminate | exact Hcodes].
Qed.

(** X12. One turn of the loop of the note labels, on a composite made of
    the elementary codes [codes] (none of which holds an underscore)
    joined with underscores, each code having the label of the same rank
    in [labels]: the number of codes is printed and the label is the
    labels joined with [" | "], in the order of the codes. *)
Theorem composite_label_of_codes (dic : string) (dic_df : DataFrame)
        (label_col : string * dtype) (others : list (string * dtype))
        (codes labels : list string) (w : world) :
  columns dic_df = (dic, DObject) :: label_col :: others ->
  NoDup (dictionary_codes dic_df) ->
  codes <> [] ->
  forallb (fun code => negb (occurs "_" code)) codes = true ->
  map (fun code => dictionary_label dic_df (CStr code)) codes = map CStr labels ->
  composite_label dic dic_df (CStr (Py.join "_" codes)) w
  = (fst (print (str_of_nat (length codes)) w), inr (Py.join " | " labels)).
Proof.
  intros Hcols Hnodup Hne Hcodes Hlabels.
  assert (Hsplit : Py.split "_" (Py.join "_" codes) = codes)
    by (apply split_join; assumption).
  rewrite (composite_label_run dic dic_df label_col others _ w Hcols Hnodup).
  - unfold composite_text. rewrite Hsplit. do 3 f_equal.
    rewrite <- (List.map_map (fun code => dictionary_label dic_df (CStr code)) cell_text).
    rewrite Hlabels, List.map_map. apply List.map_id.
  - unfold resolvable. rewrite Hsplit.
    rewrite <- (forallb_map_compose is_text (fun code => dictionary_label dic_df (CStr code))).
    rewrite Hlabels, forallb_map_compose. apply List.forallb_forall. reflexivity.
Qed.

Lemma composite_label_of_codes_witness :
  composite_label "note_source" Sample.dictionary (CStr (Py.join "_" ["B"; "A"; "B"]))
                  Sample.blank
  = (fst (print (str_of_nat (length ["B"; "A"; "B"])) Sample.blank),
     inr (Py.join " | " ["Beta"; "Alpha"; "Beta"])).
Proof.
  apply (composite_label_of_codes "note_source" Sample.dictionary
           ("note_source.label", DObject) [("note_source.sort", DObject)]
           ["B"; "A"; "B"] ["Beta"; "Alpha"; "Beta"] Sample.blank);
    try reflexivity.
  - apply (bool_decide_unpack (NoDup (dictionary_codes Sample.dictionary))).
    vm_compute. exact I.
  - discriminate.
Defined.

(** ** The filter step, on edges *)

(** A table without columns goes through the filter step unchanged,
    whatever the filters. *)
Lemma filter_no_columns (E : environment) (filters : list filter_entry) (dat : DataFrame) :
  columns dat = [] -> apply_filters E filters dat = inr dat.
Proof.
  intros Hcols. rewrite apply_filters_loop, Hcols.
  destruct (Py.truthy_list filters); reflexivity.
Qed.

(** ** The table of contents, search *)

(** X13. A search needs the columns 1-4 and 10-13 of the table of
    contents: on a table with fewer than fourteen columns, the search
    string is printed and [IndexError] is raised. *)
Theorem search_needs_fourteen_columns (E : environment) (segment lang : string)
        (search : search_arg) (filters : list filter_entry) (w : world)
        (seg lg : string) (status : nat) (body : string) (toc : DataFrame) :
  normalize_segment segment lang = (seg, lg) ->
  server E (toc_url seg lg) = Response status body ->
  http_ok status = true ->
  parse_toc E body = inr toc ->
  truthy_search search = true ->
  length (columns toc) < 14 ->
  get_ilostat_toc E segment lang search filters w
  = (fst (print match search with
                | SearchList l => Py.join " and " l
                | SearchStr s => s
                end (log_request (toc_url seg lg) w)),
     inl IndexError).
Proof.
  intros Hseg Hserver Hok Hparse Hsearch Hlen.
  unfold get_ilostat_toc. rewrite Hseg.
  unfold bind at 1. unfold urlopen. rewrite Hserver, Hok.
  unfold bind at 1. unfold lift at 1. rewrite Hparse.
  unfold bind at 1. unfold is_DataFrame. cbn [negb]. unfold ret at 1.
  unfold bind at 1. unfold search_step. rewrite Hsearch.
  unfold bind at 1. unfold print at 1.
  unfold bind at 1.
  destruct (forallb (fun i => i <? length (columns toc)) title_columns) eqn:Hall.
  - exfalso. rewrite List.forallb_forall in Hall.
    assert (H13 : (13 <? length (columns toc)) = true).
    { apply Hall. unfold title_columns. cbn. tauto. }
    apply Nat.ltb_lt in H13. lia.
  - reflexivity.
Qed.

Lemma search_needs_fourteen_columns_witness :
  get_ilostat_toc Sample.env "indicator" "en" (SearchStr "youth") [] Sample.blank
  = (fst (print "youth" (log_request (toc_url "indicator" "en") Sample.blank)),
     inl IndexError).
Proof.
  apply (search_needs_fourteen_columns Sample.env "indicator" "en" (SearchStr "youth") []
           Sample.blank "indicator" "en" 200 "toc" Sample.toc); try reflexivity.
  vm_compute. lia.
Defined.

(** ** The name of the cache entry *)

Lemma append_inv_head (p a b : string) : p +:+ a = p +:+ b -> a = b.
Proof.
  induction p as [|c p IH]; intros H; [exact H|].
  rewrite !append_cons in H. injection H as H. exact (IH H).
Qed.

(** X14. Two different dates of the layout DD.MM.YYYY give different
    names of cache entry (for the same directory, segment, id and format):
    when [last.update] changes, the entry looked for changes. *)
Theorem cache_file_name_date (cache_dir segment id cache_format d d' r r' : string) :
  date_layout d = true ->
  date_layout d' = true ->
  reformat_date (CStr d) = inr r ->
  reformat_date (CStr d') = inr r' ->
  d <> d' ->
  cache_file_name cache_dir segment id r cache_format
  <> cache_file_name cache_dir segment id r' cache_format.
Proof.
  intros Hd Hd' Hr Hr' Hne Hname. apply Hne.
  unfold cache_file_name in Hname.
  do 6 apply append_inv_head in Hname.
  unfold date_layout in Hd, Hd'.
  destruct d as [|a0 [|a1 [|a2 [|a3 [|a4 [|a5 [|a6 [|a7 [|a8 [|a9 [|a10 d]]]]]]]]]]];
    try discriminate.
  destruct d' as [|b0 [|b1 [|b2 [|b3 [|b4 [|b5 [|b6 [|b7 [|b8 [|b9 [|b10 d']]]]]]]]]]];
    try discriminate.
  cbn in Hd, Hd'.
  apply andb_prop in Hd as [Hp Hq]. apply andb_prop in Hd' as [Hp' Hq'].
  apply Ascii.eqb_eq in Hp, Hq, Hp', Hq'. subst.
  injection Hr as <-. injection Hr' as <-.
  cbn in Hname. injection Hname as -> -> -> -> -> -> -> ->. reflexivity.
Qed.

Lemma cache_file_name_date_witness :
  cache_file_name "/cache" "indicator" "A" "20200101" "csv.gz"
  <> cache_file_name "/cache" "indicator" "A" "20200102" "csv.gz".
Proof.
  apply (cache_file_name_date "/cache" "indicator" "A" "csv.gz" "01.01.2020" "02.01.2020"
           "20200101" "20200102"); try reflexivity.
  discriminate.
Defined.

(** ** Notes that do not resolve *)

Lemma join_labels_not_text (sep : string) (l : list cell) :
  forallb is_text l = false -> join_labels sep l = inl TypeError.
Proof.
  intros Hl. unfold join_labels.
  assert (Ht : traverse (fun c => match c with CStr s => inr s | _ => inl TypeError end) l
               = inl TypeError).
  { induction l as [|c l IH]; [discriminate|].
    cbn [forallb] in Hl. cbn [traverse].
    destruct c; try reflexivity. cbn [is_text andb] in Hl. rewrite (IH Hl). reflexivity. }
  rewrite Ht. reflexivity.
Qed.

Lemma composite_label_unresolved (dic : string) (dic_df : DataFrame)
      (label_col : string * dtype) (others : list (string * dtype)) (v : string) (w : world) :
  columns dic_df = (dic, DObject) :: label_col :: others ->
  NoDup (dictionary_codes dic_df) ->
  resolvable dic_df v = false ->
  composite_label dic dic_df (CStr v) w
  = (fst (print (str_of_nat (length (Py.split "_" v))) w), inl TypeError).
Proof.
  intros Hcols Hnodup Hres. unfold composite_label, bind, lift, print.
  destruct (merge_labels dic (map CStr (Py.split "_" v)) dic_df label_col others Hcols Hnodup)
    as (y & y2 & col & -> & -> & -> & Hvalues).
  rewrite Hvalues, join_labels_not_text; [reflexivity|].
  unfold resolvable in Hres. rewrite !forallb_map_compose. exact Hres.
Qed.

Lemma first_unresolved (dic_df : DataFrame) (z : list cell) :
  forallb is_text z = true ->
  forallb (note_value dic_df) z = false ->
  exists z1 v z2,
    z = z1 ++ CStr v :: z2
    /\ forallb (fun c => is_text c && note_value dic_df c) z1 = true
    /\ resolvable dic_df v = false.
Proof.
  induction z as [|c z IH]; intros Htext Hbad; [discriminate|].
  cbn [forallb] in Htext, Hbad. apply andb_prop in Htext as [Hc Htext].
  destruct c as [v| |]; try discriminate.
  destruct (resolvable dic_df v) eqn:Hv.
  - cbn [note_value] in Hbad. rewrite Hv in Hbad. cbn [andb] in Hbad.
    destruct (IH Htext Hbad) as (z1 & v' & z2 & -> & Hz1 & Hv').
    exists (CStr v :: z1), v', z2. repeat split; [|exact Hv'].
    cbn [forallb is_text note_value]. rewrite Hv, Hz1. reflexivity.
  - exists [], v, z. repeat split. exact Hv.
Qed.

Lemma composite_labels_fail (dic : string) (dic_df : DataFrame)
      (label_col : string * dtype) (others : list (string * dtype))
      (z1 : list cell) (v : string) (z2 : list cell) :
  columns dic_df = (dic, DObject) :: label_col :: others ->
  NoDup (dictionary_codes dic_df) ->
  forallb (fun c => is_text c && note_value dic_df c) z1 = true ->
  resolvable dic_df v = false ->
  forall w, exists w', composite_labels dic dic_df (z1 ++ CStr v :: z2) w = (w', inl TypeError).
Proof.
  intros Hcols Hnodup Hz1 Hv. induction z1 as [|c z1 IH]; intros w.
  - cbn [app composite_labels]. unfold bind at 1.
    rewrite (composite_label_unresolved dic dic_df label_col others v w Hcols Hnodup Hv).
    eexists. reflexivity.
  - cbn [forallb] in Hz1. apply andb_prop in Hz1 as [Hc Hz1].
    apply andb_prop in Hc as [Htext Hres].
    destruct c as [u| |]; try discriminate. cbn [note_value] in Hres.
    cbn [app composite_labels]. unfold bind at 1.
    rewrite (composite_label_run dic dic_df label_col others u w Hcols Hnodup Hres).
    unfold bind at 1.
    destruct (IH Hz1 (fst (print (str_of_nat (length (Py.split "_" u))) w))) as [w' ->].
    eexists. reflexivity.
Qed.

(** X15. A series of notes (texts and missing values) one value of which
    has an elementary code without a text label in the dictionary: the
    call raises [TypeError] (the labels joined with [" | "] hold NaN) and
    no label is returned, not even for the values that resolve. *)
Theorem label_notes_unresolved (E : environment) (s : Series) (dic lang : string)
        (code : list string) (w : world) (status : nat) (body : string)
        (dic_df : DataFrame) (label_col : string * dtype) (others : list (string * dtype)) :
  Py.truthy_str dic = true ->
  Py.find (Py.lower dic) "note_" <> (-1)%Z ->
  server E (dic_url dic lang) = Response status body ->
  http_ok status = true ->
  parse_dic E body = inr dic_df ->
  columns dic_df = (dic, DObject) :: label_col :: others ->
  NoDup (dictionary_codes dic_df) ->
  sname s = Some dic ->
  forallb (fun c => match c with CNum _ => false | _ => true end) (svalues s) = true ->
  forallb (note_value dic_df) (svalues s) = false ->
  snd (label_ilostat E (XSeries s) dic code lang w) = inl TypeError.
Proof.
  intros Hdic Hfind Hserver Hok Hparse Hcols Hnodup Hname Hnum Hbad.
  set (z := List.filter (fun c => negb (bool_decide (c = CNaN))) (unique (svalues s))).
  destruct (unique_spec (svalues s)) as [_ Hmem].
  assert (Hz_in : forall c, In c z <-> c ∈ svalues s /\ c <> CNaN).
  { intros c. unfold z. rewrite List.filter_In, <- list_elem_of_In, Hmem.
    rewrite negb_true_iff, bool_decide_eq_false. reflexivity. }
  assert (Hz_text : forallb is_text z = true).
  { apply List.forallb_forall. intros c Hc. apply Hz_in in Hc as [Hc Hnan].
    rewrite List.forallb_forall in Hnum. apply list_elem_of_In in Hc.
    specialize (Hnum c Hc). destruct c; [reflexivity | contradiction | discriminate]. }
  assert (Hz_bad : forallb (note_value dic_df) z = false).
  { destruct (forallb (note_value dic_df) z) eqn:Hz; [|reflexivity].
    rewrite <- Hbad. symmetry. apply List.forallb_forall. intros c Hc.
    destruct (decide (c = CNaN)) as [->|Hnan]; [reflexivity|].
    rewrite List.forallb_forall in Hz. apply Hz. apply Hz_in.
    split; [apply list_elem_of_In; exact Hc | exact Hnan]. }
  destruct (first_unresolved dic_df z Hz_text Hz_bad) as (z1 & v & z2 & Hz & Hz1 & Hv).
  unfold label_ilostat. rewrite Hdic. cbn [negb].
  unfold label_vector. unfold bind at 1.
  rewrite (get_ilostat_dic_served E dic lang w status body dic_df Hserver Hok Hparse).
  destruct (Z.eqb_spec (Py.find (Py.lower dic) "note_") (-1)) as [Heq|_]; [contradiction|].
  unfold bind at 1. unfold bind at 1.
  rewrite (bool_decide_eq_true_2 _ Hname). unfold ret at 1.
  unfold bind at 1. fold z. rewrite Hz.
  destruct (composite_labels_fail dic dic_df label_col others z1 v z2 Hcols Hnodup Hz1 Hv
                                  (log_request (dic_url dic lang) w)) as [w' ->].
  reflexivity.
Qed.

Lemma label_notes_unresolved_witness :
  snd (label_ilostat Sample.env
         (XSeries (mkSeries (Some "note_source") DObject [CStr "A_B"; CNaN; CStr "A_Z"]))
         "note_source" [] "en" Sample.blank)
  = inl TypeError.
Proof.
  apply (label_notes_unresolved Sample.env
           (mkSeries (Some "note_source") DObject [CStr "A_B"; CNaN; CStr "A_Z"])
           "note_source" "en" [] Sample.blank 200 "notes" Sample.dictionary
           ("note_source.label", DObject) [("note_source.sort", DObject)]);
    try reflexivity.
  - discriminate.
  - apply (bool_decide_unpack (NoDup (dictionary_codes Sample.dictionary))).
    vm_compute. exact I.
Defined.

(** ** The labeler on tables *)

(** X16. The table mode of [label_ilostat] labels nothing: whatever the frame,
    the dictionary, the codes to keep and the language, no dictionary is
    requested, no file is touched, and when the call returns, it returns
    an empty frame, the frame given being dropped. *)
Theorem label_ilostat_frame_unlabelled (E : environment) (df : DataFrame) (dic : string)
        (code : list string) (lang : string) (w : world) :
  let r := label_ilostat E (XFrame df) dic code lang w in
  requested (fst r) = requested w
  /\ files (fst r) = files w
  /\ dirs (fst r) = dirs w
  /\ (forall y, snd r = inr y -> y = YFrame empty_frame).
Proof.
  intros r. subst r. rewrite label_ilostat_frame.
  destruct (Py.truthy_str dic); [destruct code|]; cbn;
    repeat split; intros y Hy; try discriminate; injection Hy as <-; reflexivity.
Qed.

(** ** The cache directory *)

Lemma get_ilostat_raw_dirs (E : environment)
      (id segment cache_file cache_dir cache_format : string) (quiet : bool) (w : world) :
  dirs (fst (get_ilostat_raw E id segment cache_file cache_dir cache_format quiet w)) = dirs w.
Proof.
  unfold get_ilostat_raw.
  destruct (String.eqb segment "modelled_estimates").
  - unfold bind, try_except_OSError, urlopen, lift, read_local, raise, print, ret.
    destruct (server E _) as [|status body]; cbn [is_OSError].
    + destruct quiet; reflexivity.
    + destruct (http_ok status); cbn [is_OSError].
      * destruct (parse_stata E body) as [[]|dat]; destruct quiet; reflexivity.
      * destruct quiet; reflexivity.
  - unfold bind, try_except_OSError, requests_get, write_file, read_file, lift, os_remove,
      print, ret.
    destruct (server E _) as [|status body]; [reflexivity|].
    destruct (writable _ _); [|reflexivity].
    cbn [files]. rewrite lookup_insert_eq.
    destruct (parse_dataset E _ body) as [e|dat].
    + destruct e; cbn [is_OSError]; destruct quiet; cbn [negb files fst dirs];
        rewrite ?lookup_insert_eq; reflexivity.
    + destruct (String.eqb cache_format "csv.gz"); cbn [negb files];
        rewrite ?lookup_insert_eq; destruct quiet; reflexivity.
Qed.

(** *** Paths and their directories *)

Lemma length_head_basename (p : string) :
  String.length (head_to_last_slash p) + String.length (os_path_basename p)
  = String.length p.
Proof.
  induction p as [|a p IH]; [reflexivity|].
  cbn [head_to_last_slash os_path_basename].
  destruct (head_to_last_slash p) as [|b h] eqn:Hh.
  - destruct (Ascii.eqb a "/"); cbn [String.length] in *; lia.
  - cbn [String.length] in *. lia.
Qed.

Lemma length_rstrip_slash (p : string) :
  String.length (rstrip_slash p) <= String.length p.
Proof.
  induction p as [|a p IH]; [reflexivity|].
  cbn [rstrip_slash]. destruct (rstrip_slash p) as [|b r].
  - destruct (Ascii.eqb a "/"); cbn [String.length]; lia.
  - cbn [String.length] in *. lia.
Qed.

Lemma length_dirname (p : string) :
  String.length (os_path_dirname p) <= String.length (head_to_last_slash p).
Proof.
  unfold os_path_dirname. cbv zeta.
  pose proof (length_rstrip_slash (head_to_last_slash p)) as Hr.
  destruct (rstrip_slash (head_to_last_slash p)); [reflexivity | exact Hr].
Qed.

Lemma truthy_length (p : string) : Py.truthy_str p = true -> 0 < String.length p.
Proof. destruct p; [discriminate | cbn; lia]. Qed.

(** Each call of [os.makedirs] on [head] is on a shorter path. *)
Lemma makedirs_split_shorter (name head tail : string) :
  makedirs_split name = (head, tail) ->
  Py.truthy_str tail = true ->
  String.length head < String.length name.
Proof.
  unfold makedirs_split, os_path_split. intros Hsplit Htail.
  pose proof (length_head_basename name) as Hn.
  pose proof (length_dirname name) as Hd.
  destruct (Py.truthy_str (os_path_basename name)) eqn:Hbase.
  - injection Hsplit as <- <-. apply truthy_length in Htail. lia.
  - injection Hsplit as <- <-.
    pose proof (length_head_basename (os_path_dirname name)) as Hn'.
    pose proof (length_dirname (os_path_dirname name)) as Hd'.
    apply truthy_length in Htail. lia.
Qed.

Lemma prefix_refl (p : string) : String.prefix p p = true.
Proof.
  induction p as [|a p IH]; [reflexivity|].
  cbn. destruct (ascii_dec a a); [exact IH | contradiction].
Qed.

Lemma prefix_trans (p q r : string) :
  String.prefix p q = true -> String.prefix q r = true -> String.prefix p r = true.
Proof.
  revert q r. induction p as [|a p IH]; intros q r Hpq Hqr; [destruct r; reflexivity|].
  destruct q as [|b q]; [discriminate|]. destruct r as [|c r]; [discriminate|].
  cbn in *. destruct (ascii_dec a b) as [<-|]; [|discriminate].
  destruct (ascii_dec a c) as [<-|]; [|discriminate].
  exact (IH q r Hpq Hqr).
Qed.

Lemma prefix_head_to_last_slash (p : string) :
  String.prefix (head_to_last_slash p) p = true.
Proof.
  induction p as [|a p IH]; [reflexivity|].
  cbn [head_to_last_slash]. destruct (head_to_last_slash p) as [|b h].
  - destruct (Ascii.eqb a "/"); [|reflexivity].
    cbn. destruct (ascii_dec a a); [exact IH | contradiction].
  - cbn [String.prefix]. destruct (ascii_dec a a); [exact IH | contradiction].
Qed.

Lemma prefix_rstrip_slash (p : string) : String.prefix (rstrip_slash p) p = true.
Proof.
  induction p as [|a p IH]; [reflexivity|].
  cbn [rstrip_slash]. destruct (rstrip_slash p) as [|b r].
  - destruct (Ascii.eqb a "/"); [reflexivity|].
    cbn. destruct (ascii_dec a a); [exact IH | contradiction].
  - cbn [String.prefix]. destruct (ascii_dec a a); [exact IH | contradiction].
Qed.

Lemma prefix_dirname (p : string) : String.prefix (os_path_dirname p) p = true.
Proof.
  unfold os_path_dirname. cbv zeta.
  pose proof (prefix_rstrip_slash (head_to_last_slash p)) as Hr.
  pose proof (prefix_head_to_last_slash p) as Hh.
  destruct (rstrip_slash (head_to_last_slash p)); [exact Hh|].
  exact (prefix_trans _ _ _ Hr Hh).
Qed.

Lemma prefix_makedirs_split (name : string) :
  String.prefix (fst (makedirs_split name)) name = true.
Proof.
  unfold makedirs_split, os_path_split.
  destruct (Py.truthy_str (os_path_basename name)); cbn [fst].
  - apply prefix_dirname.
  - exact (prefix_trans _ _ _ (prefix_dirname _) (prefix_dirname name)).
Qed.

(** The bound on the calls of [os.makedirs] is never reached: any bound
    from the length of the path on gives the same directories. *)
Lemma missing_ancestors_fuel (w : world) (n : nat) :
  forall (m : nat) (name : string),
    String.length name <= n -> String.length name <= m ->
    missing_ancestors n w name = missing_ancestors m w name.
Proof.
  induction n as [|n IH]; intros m name Hn Hm.
  - destruct name; [|cbn in Hn; lia]. destruct m; reflexivity.
  - destruct m as [|m].
    + destruct name; [reflexivity | cbn in Hm; lia].
    + cbn [missing_ancestors].
      destruct (makedirs_split name) as [head tail] eqn:Hsplit.
      destruct (Py.truthy_str head); [|reflexivity].
      destruct (Py.truthy_str tail) eqn:Htail; [|reflexivity].
      cbn [andb]. destruct (path_exists w head); [reflexivity|].
      pose proof (makedirs_split_shorter name head tail Hsplit Htail) as Hshort.
      rewrite (IH m head) by lia. reflexivity.
Qed.

(** When no file stands at a path or at a prefix of it, the directories on
    the way to it can be made. *)
Lemma missing_ancestors_ok (w : world) (fuel : nat) :
  forall name : string,
    String.length name <= fuel ->
    (forall p, String.prefix p name = true -> files w !! p = None) ->
    exists l, missing_ancestors fuel w name = inr l.
Proof.
  induction fuel as [|fuel IH]; intros name Hlen Hfiles.
  - destruct name; [|cbn in Hlen; lia]. exists []. reflexivity.
  - cbn [missing_ancestors].
    pose proof (prefix_makedirs_split name) as Hprefix.
    destruct (makedirs_split name) as [head tail] eqn:Hsplit. cbn [fst] in Hprefix.
    destruct (Py.truthy_str head); [|exists []; reflexivity].
    destruct (Py.truthy_str tail) eqn:Htail; [|exists []; reflexivity].
    cbn [andb]. destruct (path_exists w head) eqn:Hexists.
    + unfold path_exists in Hexists. rewrite (Hfiles head Hprefix) in Hexists.
      rewrite (bool_decide_eq_false_2 (is_Some None)) in Hexists
        by (intros [? ?]; discriminate).
      cbn [orb] in Hexists. rewrite Hexists. exists []. reflexivity.
    + pose proof (makedirs_split_shorter name head tail Hsplit Htail) as Hshort.
      destruct (IH head) as [l ->]; [lia | | exists (head :: l); reflexivity].
      intros p Hp. apply Hfiles. exact (prefix_trans _ _ _ Hp Hprefix).
Qed.

Lemma effective_cache_dir_truthy (E : environment) (cache_dir : string) :
  Py.truthy_str (effective_cache_dir E cache_dir) = true.
Proof.
  unfold effective_cache_dir. destruct (Py.truthy_str cache_dir) eqn:Hdir; [exact Hdir|].
  destruct (tempdir E); reflexivity.
Qed.

Section CacheDirectory.

Context (E : environment) (id segment : string) (filters : list filter_entry)
        (cache cache_update : bool) (cache_dir cache_format : string) (quiet : bool)
        (w w1 : world) (toc : DataFrame) (col : Series) (first : cell) (rest : list cell)
        (date : string).

Hypothesis Htoc :
  get_ilostat_toc E segment "en" (SearchList []) [FStr id] w = (w1, inr toc).
Hypothesis Hcol : getitem_col toc "last.update" = inr col.
Hypothesis Hvalues : svalues col = first :: rest.
Hypothesis Hdate : reformat_date first = inr date.

(** The function up to the test of the directory. *)
Lemma get_ilostat_dat_directory :
  get_ilostat_dat E id segment filters cache cache_update cache_dir cache_format quiet w
  = (let cache_dir := effective_cache_dir E cache_dir in
     isdir <- os_path_isdir cache_dir ;;
     (if negb isdir then os_makedirs cache_dir else ret tt) ;;
     let cache_file := cache_file_name cache_dir segment id date cache_format in
     isfile <- os_path_isfile cache_file ;;
     cache_update <-
       (if cache && (cache_update && isfile)
        then (if negb quiet then print ("Table " +:+ id +:+ " is up to date") else ret tt) ;;
             ret false
        else ret cache_update) ;;
     dat <-
       (if negb cache || cache_update || negb isfile
        then get_ilostat_raw E id segment cache_file cache_dir cache_format quiet
        else
          content <- read_file cache_file ;;
          dat <- lift (parse_dataset E cache_file content) ;;
          (if negb quiet
           then print ("Table " +:+ id +:+ " read from cache file: "
                       +:+ os_path_dirname cache_file)
           else ret tt) ;;
          ret dat) ;;
     lift (apply_filters E filters dat))%prog w1.
Proof.
  unfold get_ilostat_dat, effective_cache_dir.
  unfold bind at 1. rewrite Htoc.
  unfold bind at 1. unfold lift at 1. rewrite Hcol, Hvalues. cbn [Py.truthy_list].
  unfold unique. cbn [unique_from].
  rewrite bool_decide_eq_false_2 by apply not_elem_of_nil.
  unfold bind at 1. unfold lift at 1, getitem at 1. cbn [lookup list_lookup].
  unfold bind at 1. unfold lift at 1. rewrite Hdate. reflexivity.
Qed.

(** What follows the test of the directory creates and removes no
    directory. *)
Lemma get_ilostat_dat_tail_dirs (dir : string) (w2 : world) :
  dirs (fst ((let cache_file := cache_file_name dir segment id date cache_format in
              isfile <- os_path_isfile cache_file ;;
              cache_update <-
                (if cache && (cache_update && isfile)
                 then (if negb quiet then print ("Table " +:+ id +:+ " is up to date")
                       else ret tt) ;;
                      ret false
                 else ret cache_update) ;;
              dat <-
                (if negb cache || cache_update || negb isfile
                 then get_ilostat_raw E id segment cache_file dir cache_format quiet
                 else
                   content <- read_file cache_file ;;
                   dat <- lift (parse_dataset E cache_file content) ;;
                   (if negb quiet
                    then print ("Table " +:+ id +:+ " read from cache file: "
                                +:+ os_path_dirname cache_file)
                    else ret tt) ;;
                   ret dat) ;;
              lift (apply_filters E filters dat))%prog w2))
  = dirs w2.
Proof.
  cbv zeta. set (cache_file := cache_file_name dir segment id date cache_format).
  assert (Hraw : forall w3,
             dirs w3 = dirs w2 ->
             dirs (fst (bind (get_ilostat_raw E id segment cache_file dir cache_format quiet)
                             (fun dat => lift (apply_filters E filters dat)) w3)) = dirs w2).
  { intros w3 Hw3.
    pose proof (get_ilostat_raw_dirs E id segment cache_file dir cache_format quiet w3) as Hd.
    unfold bind, lift.
    destruct (get_ilostat_raw E id segment cache_file dir cache_format quiet w3)
      as [w4 [e|dat]]; cbn [fst] in *; congruence. }
  unfold bind at 1. unfold os_path_isfile at 1.
  destruct (bool_decide (is_Some (files w2 !! cache_file))) eqn:Hfile.
  - apply bool_decide_eq_true_1 in Hfile as [content Hcontent].
    destruct cache; cbn [andb orb negb].
    + assert (Hread : forall w3,
                 dirs w3 = dirs w2 -> files w3 = files w2 ->
                 dirs (fst ((dat <-
                               (content <- read_file cache_file ;;
                                dat <- lift (parse_dataset E cache_file content) ;;
                                (if negb quiet
                                 then print ("Table " +:+ id +:+ " read from cache file: "
                                             +:+ os_path_dirname cache_file)
                                 else ret tt) ;;
                                ret dat) ;;
                             lift (apply_filters E filters dat))%prog w3)) = dirs w2).
      { intros w3 Hdirs Hfiles. unfold bind, read_file, lift, print, ret.
        rewrite Hfiles, Hcontent.
        destruct (parse_dataset E cache_file content) as [e|dat]; [exact Hdirs|].
        destruct quiet; cbn [negb fst]; destruct (apply_filters E filters dat);
          exact Hdirs. }
      destruct cache_update; cbn [andb orb negb].
      * assert (Hmsg : exists w3,
                   ((if negb quiet then print ("Table " +:+ id +:+ " is up to date")
                     else ret tt) ;; ret false)%prog w2 = (w3, inr false)
                   /\ dirs w3 = dirs w2 /\ files w3 = files w2)
          by (destruct quiet; eexists; repeat split).
        destruct Hmsg as (w3 & Hmsg & Hdirs & Hfiles).
        unfold bind at 1. rewrite Hmsg. cbn [orb]. apply Hread; assumption.
      * unfold bind at 1. unfold ret at 1. cbn [orb]. apply Hread; reflexivity.
    + unfold bind at 1. unfold ret at 1. apply Hraw. reflexivity.
  - cbn [negb]. rewrite !andb_false_r.
    unfold bind at 1. unfold ret at 1. rewrite orb_true_r. apply Hraw. reflexivity.
Qed.

(** X17. The cache directory exists when the call ends.  For an id that the
    table of contents lists, and a disk where no file stands at the path
    of the cache directory (the one given, or [ilostat] under the
    temporary directory when none is given) nor at a prefix of that path,
    so that no directory on the way to it is in fact a file: the
    directory is made if it is missing, with the directories on the way,
    and nothing removes it, whether the dataset is then read, fetched or
    found unreadable, and whether or not a later step raises. *)
Theorem cache_dir_exists_afterwards :
  (forall p, String.prefix p (effective_cache_dir E cache_dir) = true ->
             files w1 !! p = None) ->
  is_dir (fst (get_ilostat_dat E id segment filters cache cache_update cache_dir
                               cache_format quiet w))
         (effective_cache_dir E cache_dir) = true.
Proof.
  intros Hnofile. rewrite get_ilostat_dat_directory. cbv zeta.
  pose proof (effective_cache_dir_truthy E cache_dir) as Htruthy.
  set (dir := effective_cache_dir E cache_dir) in *.
  unfold bind at 1. unfold os_path_isdir at 1.
  destruct (bool_decide (dir ∈ dirs w1)) eqn:Hisdir; cbn [negb].
  - unfold bind at 1. unfold ret at 1.
    pose proof (get_ilostat_dat_tail_dirs dir w1) as Htail. cbv zeta in Htail.
    unfold is_dir. rewrite Htail, Hisdir. reflexivity.
  - unfold bind at 1. unfold os_makedirs at 1. rewrite Htruthy. cbn [negb orb].
    unfold path_exists at 1. rewrite (Hnofile dir (prefix_refl dir)).
    rewrite (bool_decide_eq_false_2 (is_Some None)) by (intros [? ?]; discriminate).
    cbn [orb]. destruct (is_dir w1 dir) eqn:Hdir; [exact Hdir|].
    destruct (missing_ancestors_ok w1 (String.length dir) dir (le_n _) Hnofile) as [l ->].
    pose proof (get_ilostat_dat_tail_dirs dir
                  (mkWorld (files w1) ({[dir]} ∪ list_to_set l ∪ dirs w1) (stdout w1)
                           (requested w1)))
      as Htail.
    cbv zeta in Htail. unfold is_dir. rewrite Htail. cbn [dirs].
    rewrite bool_decide_eq_true_2; [reflexivity|].
    apply elem_of_union_l, elem_of_union_l, elem_of_singleton. reflexivity.
Qed.

(** X18. A file standing where the cache directory should be: [os.makedirs]
    raises and the [OSError] leaves [get_ilostat_dat], once the table of
    contents has been read; the dataset is neither read nor requested. *)
Theorem cache_dir_is_a_file (content : string) :
  files w1 !! effective_cache_dir E cache_dir = Some content ->
  effective_cache_dir E cache_dir ∉ dirs w1 ->
  get_ilostat_dat E id segment filters cache cache_update cache_dir cache_format quiet w
  = (w1, inl OSError).
Proof.
  intros Hfile Hnodir. rewrite get_ilostat_dat_directory. cbv zeta.
  unfold bind at 1. unfold os_path_isdir at 1.
  rewrite (bool_decide_eq_false_2 _ Hnodir). cbn [negb].
  unfold bind at 1. unfold os_makedirs at 1, path_exists at 1. rewrite Hfile.
  rewrite (bool_decide_eq_true_2 (is_Some (Some content))) by (eexists; reflexivity).
  cbn [orb]. rewrite orb_true_r. reflexivity.
Qed.

End CacheDirectory.

Lemma cache_dir_exists_afterwards_witness :
  is_dir (fst (get_ilostat_dat Sample.env "A" "indicator" [] true false "" "csv.gz" true
                               Sample.blank))
         (effective_cache_dir Sample.env "") = true.
Proof.
  apply (cache_dir_exists_afterwards Sample.env "A" "indicator" [] true false "" "csv.gz" true
           Sample.blank (log_request (toc_url "indicator" "en") Sample.blank)
           Sample.toc
           (mkSeries (Some "last.update") DObject [CStr "02.01.2020"; CStr "01.01.2020"])
           (CStr "02.01.2020") [CStr "01.01.2020"] "20200102");
    reflexivity.
Defined.

Lemma cache_dir_is_a_file_witness :
  get_ilostat_dat Sample.env "A" "indicator" [] true false "/cache" "csv.gz" true
                  (mkWorld {[ "/cache" := "notes" ]} ∅ [] [])
  = (log_request (toc_url "indicator" "en") (mkWorld {[ "/cache" := "notes" ]} ∅ [] []),
     inl OSError).
Proof.
  apply (cache_dir_is_a_file Sample.env "A" "indicator" [] true false "/cache" "csv.gz" true
           (mkWorld {[ "/cache" := "notes" ]} ∅ [] [])
           (log_request (toc_url "indicator" "en") (mkWorld {[ "/cache" := "notes" ]} ∅ [] []))
           Sample.toc
           (mkSeries (Some "last.update") DObject [CStr "02.01.2020"; CStr "01.01.2020"])
           (CStr "02.01.2020") [CStr "01.01.2020"] "20200102"
           eq_refl eq_refl eq_refl eq_refl "notes");
    [reflexivity|].
  cbn. apply not_elem_of_empty.
Defined.

(** ** The search in the table of contents *)

Lemma join_cells_text (row : list cell) (idxs : list nat) :
  forallb (fun i => is_text (cell_at row i)) idxs = true ->
  join_cells (map (cell_at row) idxs)
  = inr (fold_right (fun i r => cell_text (cell_at row i) +:+ r) EmptyString idxs).
Proof.
  induction idxs as [|i idxs IH]; intros Hrow; [reflexivity|].
  cbn [forallb] in Hrow. apply andb_prop in Hrow as [Hi Hrow].
  cbn [map join_cells fold_right].
  destruct (cell_at row i); try discriminate.
  rewrite (IH Hrow). reflexivity.
Qed.

Lemma traverse_titles (rs : list (list cell)) :
  Forall (fun row => titled row = true) rs ->
  traverse (fun row => join_cells (map (cell_at row) title_columns)) rs
  = inr (map title_of rs).
Proof.
  induction 1 as [|row rs Hrow _ IH]; [reflexivity|].
  cbn [traverse map]. rewrite (join_cells_text row title_columns Hrow), IH. reflexivity.
Qed.

(** X19. What a search returns.  On a table of contents that is served, with
    its fourteen columns and a text in every title column (columns 1-4 and
    10-13), a search prints the text looked for (the items of a list are
    first joined with [" and "] into one pattern: they are not looked for
    one by one); on a table without rows it then raises [ValueError];
    otherwise it keeps, in their order and with all their columns, the
    rows whose title columns put end to end match that pattern, and the
    filters are applied to these rows. *)
Theorem search_keeps_matching_titles (E : environment) (segment lang : string)
        (search : search_arg) (filters : list filter_entry) (w : world)
        (seg lg : string) (status : nat) (body : string) (toc : DataFrame)
        (matcher : string -> bool) :
  normalize_segment segment lang = (seg, lg) ->
  server E (toc_url seg lg) = Response status body ->
  http_ok status = true ->
  parse_toc E body = inr toc ->
  truthy_search search = true ->
  14 <= length (columns toc) ->
  Forall (fun row => titled row = true) (rows toc) ->
  re_compile E (search_text search) = Some matcher ->
  get_ilostat_toc E segment lang search filters w
  = (fst (print (search_text search) (log_request (toc_url seg lg) w)),
     match rows toc with
     | [] => inl ValueError
     | _ :: _ =>
         apply_filters E filters
           (mkDataFrame (columns toc)
                        (List.filter (fun row => matcher (title_of row)) (rows toc)))
     end).
Proof.
  intros Hseg Hserver Hok Hparse Hsearch Hlen Htitled Hcompile.
  unfold get_ilostat_toc. rewrite Hseg.
  unfold bind at 1. unfold urlopen. rewrite Hserver, Hok.
  unfold bind at 1. unfold lift at 1. rewrite Hparse.
  unfold bind at 1. unfold is_DataFrame. cbn [negb]. unfold ret at 1.
  unfold bind at 1. unfold search_step. rewrite Hsearch.
  fold (search_text search).
  unfold bind at 1. unfold print at 1.
  unfold bind at 1.
  assert (Hall : forallb (fun i => i <? length (columns toc)) title_columns = true).
  { apply List.forallb_forall. intros i Hi. apply Nat.ltb_lt.
    unfold title_columns in Hi. cbn in Hi. lia. }
  rewrite Hall. unfold ret at 1.
  unfold bind at 1.
  destruct (rows toc) as [|row rs] eqn:Hrows; [reflexivity|].
  cbn [Py.truthy_list]. unfold ret at 1.
  unfold bind at 1. unfold lift at 1. rewrite (traverse_titles _ Htitled).
  unfold bind at 1. unfold lift at 1, str_contains at 1. cbn [sdtype svalues].
  rewrite Hcompile, !List.map_map.
  unfold lift at 1, getitem_mask.
  rewrite (proj2 (mask_has_na_false (fun row => Some (matcher (title_of row))) (row :: rs)))
    by (apply List.Forall_forall; intros r _; eexists; reflexivity).
  rewrite Hrows, (select_rows_map (fun row => Some (matcher (title_of row)))).
  unfold lift, print. cbn [fst mask_true].
  f_equal. f_equal. f_equal. apply List.filter_ext. intros r.
  destruct (matcher (title_of r)); reflexivity.
Qed.

Lemma search_keeps_matching_titles_witness :
  get_ilostat_toc Contents.env "indicator" "en" (SearchList ["price"; "index"]) []
                  Sample.blank
  = (fst (print (search_text (SearchList ["price"; "index"]))
                (log_request (toc_url "indicator" "en") Sample.blank)),
     match rows Contents.toc with
     | [] => inl ValueError
     | _ :: _ =>
         apply_filters Contents.env []
           (mkDataFrame (columns Contents.toc)
              (List.filter
                 (fun row => existsb (fun a => Py.contains a (title_of row))
                                     (Py.split "|" (search_text (SearchList ["price"; "index"]))))
                 (rows Contents.toc)))
     end).
Proof.
  apply (search_keeps_matching_titles Contents.env "indicator" "en"
           (SearchList ["price"; "index"]) [] Sample.blank "indicator" "en" 200 "toc"
           Contents.toc
           (fun s => existsb (fun a => Py.contains a s)
                             (Py.split "|" (search_text (SearchList ["price"; "index"])))));
    try reflexivity.
  repeat constructor.
Defined.

(** ** A dataset that is listed but cannot be read *)

(** X20. An id that the table of contents lists, whose file is downloaded
    (into a directory that exists) but
    cannot be opened as a table (any segment but the modelled estimates,
    without a usable cache entry): [get_ilostat_dat] returns an empty
    table whatever the filters (the filter step has no column to look at,
    so it raises nothing), the downloaded file is removed, and the message
    is printed unless quiet. *)
Theorem get_ilostat_dat_unreadable (E : environment) (id segment : string)
        (filters : list filter_entry) (cache cache_update : bool)
        (cache_dir cache_format : string) (quiet : bool) (w w1 : world)
        (toc : DataFrame) (col : Series) (first : cell) (rest : list cell)
        (date : string) (status : nat) (body : string) :
  let cache_file := cache_file_name cache_dir segment id date cache_format in
  let tfile := Py.replace cache_file ("." +:+ cache_format) ".csv.gz" in
  get_ilostat_toc E segment "en" (SearchList []) [FStr id] w = (w1, inr toc) ->
  getitem_col toc "last.update" = inr col ->
  svalues col = first :: rest ->
  reformat_date first = inr date ->
  Py.truthy_str cache_dir = true ->
  cache_dir ∈ dirs w1 ->
  cache = false \/ files w1 !! cache_file = None ->
  String.eqb segment "modelled_estimates" = false ->
  server E (base_url +:+ segment +:+ "/" +:+ id +:+ ".csv.gz") = Response status body ->
  writable w1 tfile = true ->
  parse_dataset E tfile body = inl OSError ->
  let r := get_ilostat_dat E id segment filters cache cache_update cache_dir cache_format
                           quiet w in
  snd r = inr empty_frame
  /\ files (fst r) !! tfile = None
  /\ stdout (fst r) = stdout w1 ++ (if quiet then [] else [missing_msg id]).
Proof.
  intros cache_file tfile Htoc Hcol Hvalues Hdate Hdir Hisdir Hraw Hseg Hserver Hwrite Hparse r.
  assert (Hr : r = bind (get_ilostat_raw E id segment cache_file cache_dir cache_format quiet)
                        (fun dat => lift (apply_filters E filters dat)) w1).
  { subst r.
    rewrite (get_ilostat_dat_decision E id segment filters cache_dir cache_format quiet w w1
               toc col first rest date Htoc Hcol Hvalues Hdate Hdir Hisdir).
    fold cache_file.
    unfold bind at 1. unfold os_path_isfile at 1.
    destruct (bool_decide (is_Some (files w1 !! cache_file))) eqn:Hfile.
    - destruct Hraw as [->|Hnone];
        [|apply bool_decide_eq_true_1 in Hfile; rewrite Hnone in Hfile;
          destruct Hfile; discriminate].
      cbn [andb negb orb]. unfold bind at 1. unfold ret at 1. reflexivity.
    - destruct cache, cache_update; cbn [andb negb orb];
        unfold bind at 1; unfold ret at 1; reflexivity. }
  destruct (raw_csv_unreadable E id segment cache_file cache_dir cache_format quiet w1
              status body Hseg Hserver Hwrite Hparse) as (Hres & Hfiles & Hout).
  fold tfile in Hfiles.
  rewrite Hr. unfold bind, lift.
  destruct (get_ilostat_raw E id segment cache_file cache_dir cache_format quiet w1)
    as [w2 [e|dat]]; cbn [fst snd] in *; [discriminate|].
  injection Hres as ->.
  rewrite (filter_no_columns E filters empty_frame eq_refl).
  repeat split; assumption.
Qed.

Lemma get_ilostat_dat_unreadable_witness :
  let cache_file := cache_file_name "/cache" "indicator" "AB" "20200102" "csv.gz" in
  let tfile := Py.replace cache_file ("." +:+ "csv.gz") ".csv.gz" in
  let w1 := log_request (toc_url "indicator" "en") Sample.disk in
  let r := get_ilostat_dat Sample.env "AB" "indicator" Sample.value_filters true false
                           "/cache" "csv.gz" false Sample.disk in
  snd r = inr empty_frame
  /\ files (fst r) !! tfile = None
  /\ stdout (fst r) = stdout w1 ++ [missing_msg "AB"].
Proof.
  apply (get_ilostat_dat_unreadable Sample.env "AB" "indicator" Sample.value_filters
           true false "/cache" "csv.gz" false Sample.disk
           (log_request (toc_url "indicator" "en") Sample.disk)
           Sample.toc
           (mkSeries (Some "last.update") DObject [CStr "02.01.2020"; CStr "01.01.2020"])
           (CStr "02.01.2020") [CStr "01.01.2020"] "20200102" 404 "Not Found");
    try reflexivity.
  right. reflexivity.
Defined.

(** ** Several datasets in one call *)

Lemma fetch_and_append_concat (E : environment) (segment : string)
      (filters : list filter_entry) (cache cache_update : bool)
      (cache_dir cache_format : string) (quiet : bool) (cols : list (string * dtype)) :
  NoDup cols.*1 ->
  forall (ids : list string) (dat : DataFrame) (w w' : world) (ds : list DataFrame),
    fetch_each E ids segment filters cache cache_update cache_dir cache_format quiet w
    = (w', inr ds) ->
    columns dat = cols ->
    rectangular dat ->
    Forall (fun d => columns d = cols /\ rectangular d) ds ->
    fetch_and_append E ids dat segment filters cache cache_update cache_dir cache_format
                     quiet w
    = (w', inr (mkDataFrame cols (rows dat ++ concat (map rows ds)))).
Proof.
  intros Hnodup. induction ids as [|id ids IH]; intros dat w w' ds Hfetch Hcols Hrect Hds.
  - cbn [fetch_each] in Hfetch. unfold ret in Hfetch. injection Hfetch as <- <-.
    cbn [fetch_and_append map concat]. unfold ret.
    rewrite app_nil_r, <- Hcols, frame_eta. reflexivity.
  - cbn [fetch_each fetch_and_append] in *. unfold bind at 1 in Hfetch. unfold bind at 1.
    destruct (get_ilostat_dat E id segment filters cache cache_update cache_dir cache_format
                              quiet w) as [w1 [e|d]]; [discriminate|].
    unfold bind at 1 in Hfetch.
    destruct (fetch_each E ids segment filters cache cache_update cache_dir cache_format
                         quiet w1) as [w2 [e|ds']] eqn:Hrest; [discriminate|].
    unfold ret in Hfetch. injection Hfetch as <- <-.
    apply Forall_cons in Hds as [[Hd Hdrect] Hds'].
    rewrite (df_append_same_columns dat d);
      [| congruence | unfold column_names; rewrite Hcols; exact Hnodup | exact Hrect
       | exact Hdrect].
    rewrite (IH _ w1 w2 ds' Hrest); [| exact Hcols | | exact Hds'].
    + cbn [rows map concat]. rewrite <- app_assoc. reflexivity.
    + unfold rectangular in *. cbn [rows columns]. apply Forall_app. split; [exact Hrect|].
      rewrite Hcols, <- Hd. exact Hdrect.
Qed.

(** X21. The result for a list of ids is the datasets put one under the other.
    When every dataset of the list is obtained (fetched or read from the
    cache, and filtered) with the same header, the table returned has that
    header and the rows of the datasets in the order of the ids, and the
    disk, the console and the requests are left as the successive calls
    of [get_ilostat_dat] leave them. *)
Theorem get_ilostat_concatenates (E : environment) (segment : string)
        (filters : list filter_entry) (cache cache_update : bool)
        (cache_dir cache_format : string) (quiet : bool) (w w' : world)
        (ids : list string) (ds : list DataFrame) (cols : list (string * dtype)) :
  ids <> [] ->
  fetch_each E ids (fst (normalize_segment segment "")) filters cache cache_update
             cache_dir cache_format quiet w
  = (w', inr ds) ->
  NoDup cols.*1 ->
  Forall (fun d => columns d = cols /\ rectangular d) ds ->
  get_ilostat E (IdList ids) segment filters cache cache_update cache_dir cache_format
              quiet w
  = (w', inr (mkDataFrame cols (concat (map rows ds)))).
Proof.
  intros Hids Hfetch Hnodup Hds.
  destruct ids as [|id rest]; [contradiction|].
  rewrite get_ilostat_list_run.
  cbn [fetch_each] in Hfetch. unfold bind at 1 in Hfetch. unfold bind at 1.
  destruct (get_ilostat_dat E id (fst (normalize_segment segment "")) filters cache
                            cache_update cache_dir cache_format quiet w)
    as [w1 [e|d]]; [discriminate|].
  unfold bind at 1 in Hfetch.
  destruct (fetch_each E rest (fst (normalize_segment segment "")) filters cache
                       cache_update cache_dir cache_format quiet w1)
    as [w2 [e|ds']] eqn:Hrest; [discriminate|].
  unfold ret in Hfetch. injection Hfetch as <- <-.
  apply Forall_cons in Hds as [[Hd Hdrect] Hds'].
  exact (fetch_and_append_concat E _ filters cache cache_update cache_dir cache_format quiet
           cols Hnodup rest d w1 w2 ds' Hrest Hd Hdrect Hds').
Qed.

Lemma get_ilostat_concatenates_witness :
  get_ilostat Sample.env (IdList ["A"; "A"]) "indicator" Sample.sex_filters true false
              "/cache" "csv.gz" true Sample.blank
  = (fst (fetch_each Sample.env ["A"; "A"] "indicator" Sample.sex_filters true false
                     "/cache" "csv.gz" true Sample.blank),
     inr (mkDataFrame Sample.dataset_columns
            (concat (map rows [mkDataFrame Sample.dataset_columns [Sample.observation "SEX_F" 5];
                               mkDataFrame Sample.dataset_columns [Sample.observation "SEX_F" 5]])))).
Proof.
  apply (get_ilostat_concatenates Sample.env "indicator" Sample.sex_filters true false
           "/cache" "csv.gz" true Sample.blank).
  - discriminate.
  - vm_compute. reflexivity.
  - apply (bool_decide_unpack (NoDup Sample.dataset_columns.*1)). vm_compute. exact I.
  - repeat constructor.
Defined.
